(** * dj-stripe [djstripe/models.py]: a shallow embedding and its properties

    The models of [djstripe/models.py] are embedded as records, the
    querysets they own as lists or finite maps, and every method that
    talks to the database or to the remote provider as a computation in
    a state-and-exception monad.  The remote provider, the webhook
    handler registry and the helpers that live in other modules of the
    package ([stripe_objects], [utils], [webhooks], [signals]) are taken
    as section variables. *)

From Stdlib Require Import ZArith QArith Ascii String.
From stdpp Require Import base option list strings pretty gmap.

Local Open Scope Z_scope.
Local Open Scope string_scope.

(** ** Python values shared by all models *)

Module Py.

(** The exception classes [models.py] raises, catches or lets through. *)
Inductive ExcClass :=
| StripeError              (* stripe.error.StripeError itself *)
| InvalidRequestError      (* subclass of StripeError *)
| CardError                (* subclass of StripeError *)
| APIConnectionError       (* subclass of StripeError *)
| APIError                 (* subclass of StripeError *)
| AuthenticationError      (* subclass of StripeError *)
| TypeError
| ValueError
| KeyError
| AttributeError
| DoesNotExist
| MultipleObjectsReturned
| ValidationError
| MultipleSubscriptionException
| SubscriptionCancellationFailure
| InvalidOperation         (* decimal.InvalidOperation *)
| IntegrityError.          (* django.db.IntegrityError *)

#[global] Instance ExcClass_eq_dec : EqDecision ExcClass.
Proof. solve_decision. Defined.

(** [isinstance(exc, StripeError)] *)
Definition is_StripeError (c : ExcClass) : bool :=
  match c with
  | StripeError | InvalidRequestError | CardError
  | APIConnectionError | APIError | AuthenticationError => true
  | _ => false
  end.

(** [isinstance(exc, InvalidRequestError)] *)
Definition is_InvalidRequestError (c : ExcClass) : bool :=
  match c with
  | InvalidRequestError => true
  | _ => false
  end.

(** An exception object: its class, [str(exc)] and, for provider
    errors, [exc.http_body]. *)
Record Exc := mkExc {
  exc_class : ExcClass;
  exc_str : string;
  exc_http_body : option string
}.

#[global] Instance Exc_eq_dec : EqDecision Exc.
Proof. solve_decision. Defined.

Definition exc (c : ExcClass) (msg : string) : Exc := mkExc c msg None.

(** The outcome of a call: a value or a raised exception. *)
Inductive result (A : Type) :=
| Ok (a : A)
| Raise (e : Exc).
Arguments Ok {A} a.
Arguments Raise {A} e.

(** Computations over a store [S]: what was written before an
    exception stays written (there is no transaction in the source). *)
Definition M (S A : Type) : Type := S -> result A * S.

Definition ret {S A} (a : A) : M S A := fun s => (Ok a, s).

Definition bind {S A B} (m : M S A) (k : A -> M S B) : M S B :=
  fun s => match m s with
           | (Ok a, s') => k a s'
           | (Raise e, s') => (Raise e, s')
           end.

Definition raise {S A} (e : Exc) : M S A := fun s => (Raise e, s).

(** A call that touches no state: its value, or what it raises. *)
Definition lift_result {S A} (r : result A) : M S A := fun s => (r, s).

Definition get {S} : M S S := fun s => (Ok s, s).
Definition put {S} (s : S) : M S unit := fun _ => (Ok tt, s).
Definition modify {S} (f : S -> S) : M S unit := fun s => (Ok tt, f s).

(** [try: body  except <classes matched by catches> as exc: handler] *)
Definition try_except {S A} (body : M S A) (catches : ExcClass -> bool)
    (handler : Exc -> M S A) : M S A :=
  fun s => match body s with
           | (Ok a, s') => (Ok a, s')
           | (Raise e, s') =>
               if catches (exc_class e) then handler e s'
               else (Raise e, s')
           end.

#[global] Instance M_ret {S} : MRet (M S) := @ret S.
#[global] Instance M_bind {S} : MBind (M S) := fun A B k m => bind m k.

(** [for x in xs: body(x)] *)
Fixpoint for_each {S A} (xs : list A) (body : A -> M S unit) : M S unit :=
  match xs with
  | [] => ret tt
  | x :: xs' => bind (body x) (fun _ => for_each xs' body)
  end.

(** [s.startswith(p)] *)
Definition startswith (s p : string) : bool := String.prefix p s.

(** [x or d] on an optional string: [None] and the empty string are
    both falsy. *)
Definition str_or (x : option string) (d : string) : string :=
  match x with
  | Some (String a r) => String a r
  | _ => d
  end.

(** [s.split(".", 1)] unpacked into two names: the text before the
    first dot and the text after it; [None] when there is no dot (the
    unpacking then raises [ValueError]). *)
Fixpoint split_dot (s : string) : option (string * string) :=
  match s with
  | EmptyString => None
  | String a r =>
      if Ascii.eqb a "."%char then Some (EmptyString, r)
      else match split_dot r with
           | Some (h, t) => Some (String a h, t)
           | None => None
           end
  end.

(** A [datetime]: seconds since the epoch. *)
Definition datetime := Z.

End Py.

Export Py.

(** ** Rows of the local mirror *)

Record Plan := mkPlan {
  plan_stripe_id : string;
  plan_name : string
}.

Record Subscription := mkSubscription {
  sub_stripe_id : string;
  sub_customer : Z;                         (* ForeignKey("Customer") *)
  sub_plan : Z;                             (* ForeignKey("Plan"): the plan's key, [plan__id] *)
  sub_status : string;
  sub_start : datetime;
  sub_current_period_end : datetime;
  sub_trial_end : option datetime;
  sub_canceled_at : option datetime;
  sub_cancel_at_period_end : bool
}.

Record Card := mkCard {
  card_stripe_id : string;
  card_customer : Z                         (* ForeignKey("Customer") *)
}.

Record Customer := mkCustomer {
  cust_id : Z;                              (* primary key *)
  cust_stripe_id : string;
  cust_subscriber : option Z;               (* OneToOneField, null=True *)
  cust_default_source : option string;      (* ForeignKey(StripeSource, null=True) *)
  cust_date_purged : option datetime
}.

#[global] Instance Subscription_eq_dec : EqDecision Subscription.
Proof. solve_decision. Defined.
#[global] Instance Card_eq_dec : EqDecision Card.
Proof. solve_decision. Defined.
#[global] Instance Customer_eq_dec : EqDecision Customer.
Proof. solve_decision. Defined.

(** The [plan] argument of [has_active_subscription] and
    [cancel_subscription]: [None], a [Plan] instance or a plan id. *)
Inductive PlanArg :=
| PlanNone
| PlanObject (p : Plan)
| PlanId (id : string).

(** ** Subscription *)

(** [Subscription.is_period_current] *)
Definition is_period_current (self : Subscription) (now : datetime) : bool :=
  bool_decide (sub_current_period_end self > now).

(** [Subscription.is_status_current] *)
Definition is_status_current (self : Subscription) : bool :=
  bool_decide (sub_status self ∈ ["trialing"; "active"]).

(** [Subscription.is_valid] *)
Definition is_valid (self : Subscription) (now : datetime) : bool :=
  if negb (is_status_current self) then false
  else if negb (is_period_current self now) then false
  else true.

(** ** Customer: the subscription accessors and cancellation *)

Section CustomerSubscriptions.

(** The provider's state together with the tables this section does
    not look at, and the payload the provider answers a cancellation
    with. *)
Variables (R StripeSubscriptionData : Type).

(** [StripeSubscription.cancel(at_period_end=...)], the remote
    cancellation call. *)
Variable stripe_cancel : Subscription -> bool -> M R StripeSubscriptionData.

(** [Subscription.sync_from_stripe_data], which rewrites the local
    rows from the payload. *)
Variable sync_from_stripe_data :
  StripeSubscriptionData -> M (list Subscription * R) Subscription.

(** [int(value)], which Django applies to the value an integer key is
    compared with: the integer, or the [ValueError] it raises. *)
Variable int : string -> result Z.

(** Remote calls, in the order they were made. *)
Inductive ApiCall :=
| SubscriptionCancel (subscription : Subscription) (at_period_end : bool).

Record World := mkWorld {
  subscriptions : list Subscription;      (* the table, in primary-key order *)
  calls : list ApiCall;
  rest : R
}.

(** The rows [self.subscriptions] ranges over. *)
Definition rows_of (self : Customer) (w : World) : list Subscription :=
  filter (fun s => sub_customer s = cust_id self) (subscriptions w).

(** [self.subscriptions.all()] *)
Definition customer_subscriptions (self : Customer) : M World (list Subscription) :=
  fun w => (Ok (rows_of self w), w).

(** [self.subscriptions.filter(plan__id=plan)]: [plan__id] is the
    integer key of the plan, so the string is converted first. *)
Definition customer_subscriptions_for (self : Customer) (plan : string)
    : M World (list Subscription) :=
  plan_id ← lift_result (int plan);
  qs ← customer_subscriptions self;
  mret (filter (fun s => sub_plan s = plan_id) qs).

(** [Customer._plan_none_check] *)
Definition _plan_none_check (self : Customer) (plan : PlanArg) : M World unit :=
  qs ← customer_subscriptions self;
  if bool_decide (length qs ≠ 1%nat) then
    raise (exc TypeError
      "plan cannot be None if more than one subscription exists for this customer.")
  else mret tt.

(** [obj.is_valid()] on what [first()] returned: [None] has no such
    attribute. *)
Definition first_is_valid (o : option Subscription) (now : datetime) : M World bool :=
  match o with
  | Some s => mret (is_valid s now)
  | None => raise (exc AttributeError "'NoneType' object has no attribute 'is_valid'")
  end.

(** [Customer.has_active_subscription] *)
Definition has_active_subscription (self : Customer) (plan : PlanArg)
    (now : datetime) : M World bool :=
  try_except
    (match plan with
     | PlanNone =>
         _plan_none_check self plan ;;
         qs ← customer_subscriptions self;
         first_is_valid (head qs) now
     | PlanObject p =>
         qs ← customer_subscriptions_for self (plan_stripe_id p);
         mret (existsb (fun s => is_valid s now) qs)
     | PlanId id =>
         qs ← customer_subscriptions_for self id;
         mret (existsb (fun s => is_valid s now) qs)
     end)
    (fun c => bool_decide (c = DoesNotExist))
    (fun _ => mret false).

(** [Customer.subscription] (a property) *)
Definition subscription (self : Customer) : M World (option Subscription) :=
  qs ← customer_subscriptions self;
  let subscription_count := length qs in
  if bool_decide (subscription_count = 0%nat) then mret None
  else if bool_decide (subscription_count = 1%nat) then mret (head qs)
  else raise (exc MultipleSubscriptionException
    "This customer has multiple subscriptions. Use Customer.subscriptions to access them.").

(** [self.subscriptions.get(plan__id=plan)] with its two handlers. *)
Definition get_subscription_for (self : Customer) (plan : string)
    : M World (option Subscription) :=
  qs ← customer_subscriptions_for self plan;
  match qs with
  | [] => raise (exc SubscriptionCancellationFailure
                   "Customer does not have a subscription.")
  | [s] => mret (Some s)
  | _ => raise (exc MultipleSubscriptionException
      "Customer has multiple subscriptions to the same plan. In order to cancel these subscriptions, use Subscription.cancel().")
  end.

(** The first half of [cancel_subscription]: which subscription is
    cancelled. *)
Definition cancel_target (self : Customer) (plan : PlanArg)
    : M World (option Subscription) :=
  match plan with
  | PlanNone =>
      _plan_none_check self plan ;;
      qs ← customer_subscriptions self;
      mret (head qs)
  | PlanObject p => get_subscription_for self (plan_stripe_id p)
  | PlanId id => get_subscription_for self id
  end.

(** [subscription.cancel(at_period_end=at_period_end)]: the call is
    recorded and handed to the provider. *)
Definition subscription_cancel (self : Subscription) (at_period_end : bool)
    : M World StripeSubscriptionData :=
  fun w =>
    let '(r, rest') := stripe_cancel self at_period_end (rest w) in
    (r, mkWorld (subscriptions w)
                (calls w ++ [SubscriptionCancel self at_period_end]) rest').

Definition sync_subscription (data : StripeSubscriptionData) : M World Subscription :=
  fun w =>
    let '(r, (subs', rest')) := sync_from_stripe_data data (subscriptions w, rest w) in
    (r, mkWorld subs' (calls w) rest').

(** [subscription.trial_end and subscription.trial_end > timezone.now()] *)
Definition in_trial (s : Subscription) (now : datetime) : bool :=
  match sub_trial_end s with
  | Some t => bool_decide (t > now)
  | None => false
  end.

Definition newline : string := String (ascii_of_nat 10) EmptyString.

(** The [try] block of [cancel_subscription]. *)
Definition cancel_resolved (o : option Subscription) (at_period_end : bool)
    (now : datetime) : M World StripeSubscriptionData :=
  try_except
    (match o with
     | Some subscription =>
         let at_period_end :=
           if in_trial subscription now then false else at_period_end in
         subscription_cancel subscription at_period_end
     | None => raise (exc AttributeError
                        "'NoneType' object has no attribute 'trial_end'")
     end)
    is_InvalidRequestError
    (fun e => raise (exc SubscriptionCancellationFailure
       ("Customer's information is not current with Stripe." ++ newline ++ exc_str e))).

(** [Customer.cancel_subscription] *)
Definition cancel_subscription (self : Customer) (plan : PlanArg)
    (at_period_end : bool) (now : datetime) : M World Subscription :=
  subscription ← cancel_target self plan;
  stripe_subscription ← cancel_resolved subscription at_period_end now;
  sync_subscription stripe_subscription.

End CustomerSubscriptions.

Arguments World R : clear implicits.
Arguments mkWorld {R} _ _ _.
Arguments subscriptions {R} _.
Arguments calls {R} _.
Arguments rest {R} _.
Arguments rows_of {R} self w.
Arguments customer_subscriptions {R} self _.
Arguments customer_subscriptions_for {R} int self plan _.
Arguments get_subscription_for {R} int self plan _.
Arguments _plan_none_check {R} self plan _.
Arguments first_is_valid {R} o now _.
Arguments has_active_subscription {R} int self plan now _.
Arguments subscription {R} self _.
Arguments cancel_target {R} int self plan _.
Arguments subscription_cancel {R StripeSubscriptionData} stripe_cancel self at_period_end _.
Arguments sync_subscription {R StripeSubscriptionData} sync_from_stripe_data data _.
Arguments cancel_resolved {R StripeSubscriptionData} stripe_cancel o at_period_end now _.
Arguments cancel_subscription {R StripeSubscriptionData} stripe_cancel sync_from_stripe_data
  int self plan at_period_end now _.

(** ** Deleting a card row: the cascade *)

(** [Customer.default_source] names no [on_delete]; for the Django this
    code is written for (a [ForeignKey] without the argument) that is
    CASCADE.  The [customer] key of a payment source is declared in
    [stripe_objects.py]; it is taken to cascade too, as every key
    declared in this file does.  Deleting a card row therefore deletes
    the customers whose default source it is, the cards of those
    customers, the customers those cards are the default source of, and
    so on. *)

(** Whether a customer row's default source is among the cards being
    deleted. *)
Definition defaults_to (dead_cards : gset string) (k : Customer) : bool :=
  match cust_default_source k with
  | Some s => bool_decide (s ∈ dead_cards)
  | None => false
  end.

(** One round of collection: the cards of the customers collected so
    far, and the customers whose default source is a card collected so
    far. *)
Definition collect_step (cs : list Card) (ks : gmap Z Customer)
    (dead : gset string * gset Z) : gset string * gset Z :=
  (dead.1 ∪ list_to_set (card_stripe_id <$> filter (fun c => card_customer c ∈ dead.2) cs),
   dead.2 ∪ dom (filter (fun kv : Z * Customer => defaults_to dead.1 kv.2 = true) ks)).

(** What deleting the card [id] collects: each round that is not the
    last adds a row, so as many rounds as there are rows suffice. *)
Definition collect (cs : list Card) (ks : gmap Z Customer) (id : string)
    : gset string * gset Z :=
  Nat.iter (length cs + size ks) (collect_step cs ks) ({[ id ]}, ∅).

(** The bound on a collection: rows of the two tables, and the card
    itself. *)
Definition within (cs : list Card) (ks : gmap Z Customer) (id : string)
    (dead : gset string * gset Z) : Prop :=
  dead.1 ⊆ {[ id ]} ∪ list_to_set (card_stripe_id <$> cs) /\ dead.2 ⊆ dom ks.

(** ** Card removal and Customer purge *)

Section CustomerLifecycle.

(** The provider's state. *)
Variable R : Type.

(** [Customer._api_delete] and [Card._api_delete]: the remote deletions. *)
Variable customer_api_delete : Customer -> M R unit.
Variable card_api_delete : Card -> M R unit.

(** [StripeCustomer.purge], which blanks the identifying columns the
    base class owns. *)
Variable super_purge : Customer -> Customer.

Record Store := mkStore {
  cards : list Card;                        (* the payment-source table *)
  customers : gmap Z Customer;              (* the customer table, by primary key *)
  remote : R
}.

(** A remote call leaves the local tables alone. *)
Definition on_remote {A} (m : M R A) : M Store A :=
  fun st => let '(r, remote') := m (remote st) in
            (r, mkStore (cards st) (customers st) remote').

(** The tables once the card row and what cascades from it are gone. *)
Definition without_card (self : Card) (st : Store) : Store :=
  let dead := collect (cards st) (customers st) (card_stripe_id self) in
  mkStore (filter (fun c => card_stripe_id c ∉ dead.1) (cards st))
          (filter (fun kv : Z * Customer => kv.1 ∉ dead.2) (customers st))
          (remote st).

(** [Model.delete] on a card row ([stripe_id] is unique). *)
Definition card_delete (self : Card) : M Store unit :=
  modify (without_card self).

(** [Model.save] on a customer row. *)
Definition customer_save (self : Customer) : M Store unit :=
  modify (fun st =>
    mkStore (cards st) (<[cust_id self := self]> (customers st)) (remote st)).

(** [Card.remove]: the handler's only statement is an [if] whose
    branch is [pass], so the handler ends normally either way. *)
Definition card_remove (self : Card) : M Store unit :=
  try_except (on_remote (card_api_delete self))
    is_InvalidRequestError
    (fun e => if startswith (exc_str e) "No such customer:" then mret tt
              else mret tt) ;;
  card_delete self.

(** [self.sources.all()] *)
Definition customer_sources (self : Customer) : M Store (list Card) :=
  fun st => (Ok (filter (fun c => card_customer c = cust_id self) (cards st)), st).

(** [Customer.purge]; [now] is what [timezone.now()] returns.  The
    mutated [self] is returned. *)
Definition purge (self : Customer) (now : datetime) : M Store Customer :=
  try_except (on_remote (customer_api_delete self))
    is_InvalidRequestError
    (fun e => if startswith (exc_str e) "No such customer:" then mret tt
              else raise e) ;;
  let self := mkCustomer (cust_id self) (cust_stripe_id self) None
                (cust_default_source self) (cust_date_purged self) in
  let self := mkCustomer (cust_id self) (cust_stripe_id self) (cust_subscriber self)
                None (cust_date_purged self) in
  sources ← customer_sources self;
  for_each sources card_remove ;;
  let self := super_purge self in
  let self := mkCustomer (cust_id self) (cust_stripe_id self) (cust_subscriber self)
                (cust_default_source self) (Some now) in
  customer_save self ;;
  mret self.

(** [self] as [purge] leaves it when it returns at time [now]. *)
Definition purged_self (self : Customer) (now : datetime) : Customer :=
  let cleared := mkCustomer (cust_id self) (cust_stripe_id self) None None
                   (cust_date_purged self) in
  let base := super_purge cleared in
  mkCustomer (cust_id base) (cust_stripe_id base) (cust_subscriber base)
    (cust_default_source base) (Some now).

End CustomerLifecycle.

Arguments Store R : clear implicits.
Arguments mkStore {R} _ _ _.
Arguments cards {R} _.
Arguments customers {R} _.
Arguments remote {R} _.
Arguments on_remote {R A}.
Arguments without_card {R}.
Arguments card_delete {R}.
Arguments customer_save {R}.
Arguments card_remove {R}.
Arguments customer_sources {R}.
Arguments purge {R}.

(** ** Amounts *)

(** Amounts are stored in [DecimalField(max_digits=7, decimal_places=2)]
    columns.  A number of cents divided by 100 has at most two decimal
    places; it fits when it has at most five digits before the point,
    and preparing it for the database raises [decimal.InvalidOperation]
    otherwise. *)
Definition fits_decimal_7_2 (cents : Z) : bool :=
  bool_decide (Z.abs cents < 10000000).

Definition decimal_overflow : Exc :=
  exc InvalidOperation "[<class 'decimal.InvalidOperation'>]".

(** ** Invoice sync and invoice retry *)

Record Invoice := mkInvoice {
  inv_id : Z;                               (* primary key *)
  inv_stripe_id : string;
  inv_customer : Z;                         (* ForeignKey(Customer) *)
  inv_paid : bool;
  inv_closed : bool;
  inv_date : datetime;
  inv_period_end : option datetime
}.

Record InvoiceItem := mkInvoiceItem {
  ii_stripe_id : string;
  ii_invoice : Z;                           (* ForeignKey(Invoice) *)
  ii_amount : Q;                            (* [item["amount"] / Decimal("100")] *)
  ii_currency : string;
  ii_period_start : option datetime;
  ii_period_end : option datetime;
  ii_proration : bool;
  ii_line_type : string;
  ii_description : string;
  ii_plan : option string;
  ii_quantity : option Z
}.

Definition set_period_end (invoice : Invoice) (period_end : option datetime) : Invoice :=
  mkInvoice (inv_id invoice) (inv_stripe_id invoice) (inv_customer invoice)
    (inv_paid invoice) (inv_closed invoice) (inv_date invoice) period_end.

Section Invoices.

(** The provider's state with the tables this section does not look
    at; the [period] object of a line; a charge payload; a charge row. *)
Variables (R Period ChargeData ChargeRow : Type).

(** One element of [data["lines"]["data"]], with the keys the provider
    documents as always present. *)
Record LineItem := mkLineItem {
  li_id : string;
  li_amount : Z;
  li_currency : string;
  li_proration : bool;
  li_description : option string;           (* [item.get("description")] *)
  li_type : string;
  li_plan : option string;                  (* [item["plan"]["id"]] when [item.get("plan")] *)
  li_period : Period;
  li_quantity : option Z                    (* [item.get("quantity")] *)
}.

(** The invoice payload. *)
Record InvoiceData := mkInvoiceData {
  data_stripe_id : string;
  data_lines : option (list LineItem);      (* [data["lines"].get("data")] *)
  data_charge : option string               (* [data.get("charge")], when truthy *)
}.

Record Db := mkDb {
  invoices : list Invoice;                  (* in the default ordering, [-date] *)
  items : list InvoiceItem;
  other : R
}.

(** [utils.convert_tstamp(response, field_name)] *)
Variable convert_tstamp : Period -> string -> option datetime.

(** [djstripe_settings.plan_from_stripe_id] *)
Variable plan_from_stripe_id : string -> option string.

(** The error the database raises for a NULL written to the named
    column of the item table, which is declared NOT NULL. *)
Variable not_null_error : string -> Exc.

(** [StripeObject.sync_from_stripe_data], the inherited class method. *)
Variable super_sync_from_stripe_data : InvoiceData -> M Db Invoice.

(** [Charge(stripe_id=...).api_retrieve()], [Charge.sync_from_stripe_data]
    and [Charge.send_receipt]. *)
Variable charge_api_retrieve : string -> M Db ChargeData.
Variable charge_sync_from_stripe_data : ChargeData -> M Db ChargeRow.
Variable charge_send_receipt : ChargeRow -> M Db unit.

(** [self.api_retrieve().invoices().data] and
    [StripeInvoice.retry]. *)
Variable customer_api_invoices : Customer -> M Db (list InvoiceData).
Variable invoice_retry : Invoice -> M Db bool.

Definition is_item_of (invoice : Invoice) (stripe_id : string) (it : InvoiceItem) : bool :=
  bool_decide (ii_invoice it = inv_id invoice) && bool_decide (ii_stripe_id it = stripe_id).

(** The row built from one line: the [defaults] of [get_or_create],
    which are also the values written on an existing row. *)
Definition item_row (invoice : Invoice) (item : LineItem) : InvoiceItem :=
  let period_end := convert_tstamp (li_period item) "end" in
  let period_start := convert_tstamp (li_period item) "start" in
  let plan := match li_plan item with
              | Some id => plan_from_stripe_id id
              | None => Some ""
              end in
  mkInvoiceItem (li_id item) (inv_id invoice) (li_amount item # 100)
    (li_currency item) period_start period_end (li_proration item)
    (li_type item) (str_or (li_description item) "") plan (li_quantity item).

(** Writing an item row, inserted or updated: the amount is prepared
    first, then the database checks the columns that cannot be NULL. *)
Definition check_item (cents : Z) (row : InvoiceItem) : option Exc :=
  if negb (fits_decimal_7_2 cents) then Some decimal_overflow
  else match ii_period_start row, ii_period_end row with
       | None, _ => Some (not_null_error "period_start")
       | Some _, None => Some (not_null_error "period_end")
       | Some _, Some _ => None
       end.

(** [invoice.items.get_or_create(stripe_id=..., defaults=...)] followed
    by the overwrite of a row that was found. *)
Definition upsert_item (invoice : Invoice) (item : LineItem) : M Db unit :=
  fun db =>
    let row := item_row invoice item in
    let write (items' : list InvoiceItem) : result unit * Db :=
      match check_item (li_amount item) row with
      | Some e => (Raise e, db)
      | None => (Ok tt, mkDb (invoices db) items' (other db))
      end in
    match filter (fun it => is_item_of invoice (li_id item) it = true) (items db) with
    | [] => write (items db ++ [row])%list
    | [_] =>
        write (map (fun it => if is_item_of invoice (li_id item) it
                              then row else it) (items db))
    | found =>
        (Raise (exc MultipleObjectsReturned
                  ("get() returned more than one InvoiceItem -- it returned "
                   ++ pretty (length found) ++ "!")), db)
    end.

(** The body of the loop over the lines; the invoice object is threaded
    through. *)
Definition sync_line (invoice : Invoice) (item : LineItem) : M Db Invoice :=
  let period_end := convert_tstamp (li_period item) "end" in
  let invoice := set_period_end invoice period_end in
  upsert_item invoice item ;;
  mret invoice.

Fixpoint sync_lines (invoice : Invoice) (lines : list LineItem) : M Db Invoice :=
  match lines with
  | [] => mret invoice
  | item :: lines' =>
      invoice ← sync_line invoice item;
      sync_lines invoice lines'
  end.

(** [Model.save] on an invoice row. *)
Definition invoice_save (invoice : Invoice) : M Db unit :=
  modify (fun db =>
    if existsb (fun r => bool_decide (inv_id r = inv_id invoice)) (invoices db) then
      mkDb (map (fun r => if bool_decide (inv_id r = inv_id invoice) then invoice else r)
              (invoices db)) (items db) (other db)
    else mkDb (invoices db ++ [invoice]) (items db) (other db)).

(** The end of [sync_from_stripe_data]: [if data.get("charge"): ...] *)
Definition sync_charge (data : InvoiceData) (send_receipt : bool) : M Db unit :=
  match data_charge data with
  | Some charge_id =>
      stripe_charge ← charge_api_retrieve charge_id;
      charge ← charge_sync_from_stripe_data stripe_charge;
      if send_receipt then charge_send_receipt charge else mret tt
  | None => mret tt
  end.

(** [Invoice.sync_from_stripe_data] *)
Definition sync_from_stripe_data (data : InvoiceData) (send_receipt : bool)
    : M Db Invoice :=
  invoice ← super_sync_from_stripe_data data;
  invoice ← sync_lines invoice (default [] (data_lines data));
  invoice_save invoice ;;
  sync_charge data send_receipt ;;
  mret invoice.

(** [Customer._sync_invoices] *)
Definition _sync_invoices (self : Customer) : M Db unit :=
  stripe_invoices ← customer_api_invoices self;
  for_each stripe_invoices (fun invoice =>
    sync_from_stripe_data invoice false ;; mret tt).

(** [self.invoices.filter(paid=False, closed=False)] *)
Definition unpaid_invoices (self : Customer) : M Db (list Invoice) :=
  fun db =>
    (Ok (filter (fun i => inv_customer i = cust_id self
                          ∧ inv_paid i = false ∧ inv_closed i = false)
           (invoices db)), db).

(** The [try] statement inside the loop of [retry_unpaid_invoices]. *)
Definition retry_one (invoice : Invoice) : M Db unit :=
  try_except (invoice_retry invoice ;; mret tt)
    is_InvalidRequestError
    (fun e => if bool_decide (exc_str e ≠ "Invoice is already paid") then raise e
              else mret tt).

(** The exceptions the handler of [retry_one] ends normally on: caught
    by the [except InvalidRequestError] clause and not re-raised. *)
Definition swallowed_by_retry (e : Exc) : bool :=
  is_InvalidRequestError (exc_class e)
  && bool_decide (exc_str e = "Invoice is already paid").

(** [Customer.retry_unpaid_invoices] *)
Definition retry_unpaid_invoices (self : Customer) : M Db unit :=
  _sync_invoices self ;;
  qs ← unpaid_invoices self;
  for_each qs retry_one.

End Invoices.

Arguments Db R : clear implicits.
Arguments mkDb {R} _ _ _.
Arguments invoices {R} _.
Arguments items {R} _.
Arguments other {R} _.
Arguments mkLineItem {Period} _ _ _ _ _ _ _ _ _.
Arguments mkInvoiceData {Period} _ _ _.
Arguments li_id {Period} _.
Arguments li_period {Period} _.
Arguments li_amount {Period} _.
Arguments data_stripe_id {Period} _.
Arguments data_lines {Period} _.
Arguments data_charge {Period} _.
Arguments item_row {Period}.
Arguments upsert_item {R Period}.
Arguments sync_line {R Period}.
Arguments sync_lines {R Period}.
Arguments invoice_save {R}.
Arguments sync_charge {R Period ChargeData ChargeRow}.
Arguments sync_from_stripe_data {R Period ChargeData ChargeRow}.
Arguments _sync_invoices {R Period ChargeData ChargeRow}.
Arguments unpaid_invoices {R}.
Arguments retry_one {R}.
Arguments retry_unpaid_invoices {R Period ChargeData ChargeRow}.

(** ** Event validation and processing *)

Section Events.

(** The provider's state with everything the webhook handlers may
    touch; a decoded JSON message; the value under its ["data"] key. *)
Variables (R Msg Data : Type).

(** Python's [==] on two decoded messages, and [message["data"]]
    ([None] when the key is missing). *)
Variable msg_eq : Msg -> Msg -> bool.
Variable msg_data : Msg -> option Data.

Record Event := mkEvent {
  ev_stripe_id : string;
  ev_type : string;
  ev_webhook_message : Msg;
  ev_customer : option Z;
  ev_valid : option bool;                   (* NullBooleanField *)
  ev_processed : bool
}.

Record EventProcessingException := mkEventProcessingException {
  epe_event : option string;                (* ForeignKey("Event", null=True) *)
  epe_data : string;
  epe_message : string;
  epe_traceback : string
}.

(** What is broadcast to the receivers: a per-type webhook signal, or
    [webhook_processing_error]. *)
Inductive Signal :=
| WebhookSignal (type : string) (event : Event)
| WebhookProcessingError (data : option string) (exception : Exc).

Record EventStore := mkEventStore {
  events : gmap string Event;               (* the event table, by [stripe_id] *)
  exception_log : list EventProcessingException;
  sent : list Signal;                       (* broadcasts, oldest first *)
  outside : R
}.

(** [json.loads(json.dumps(self.api_retrieve().to_dict(), sort_keys=True))] *)
Variable api_retrieve_message : Event -> M R Msg.

(** [webhooks.call_handlers(event, data, event_type, event_subtype)]:
    the handlers are given the event object itself, so they run on it
    and on the store, and may change either. *)
Variable call_handlers : Data -> string -> string -> M (Event * EventStore) unit.

(** The keys of [signals.WEBHOOK_SIGNALS]. *)
Variable WEBHOOK_SIGNALS : gset string.

(** [traceback.format_exc()] while [exc] is being handled. *)
Variable format_exc : Exc -> string.

Definition set_valid (self : Event) (v : option bool) : Event :=
  mkEvent (ev_stripe_id self) (ev_type self) (ev_webhook_message self)
    (ev_customer self) v (ev_processed self).

Definition set_processed (self : Event) (p : bool) : Event :=
  mkEvent (ev_stripe_id self) (ev_type self) (ev_webhook_message self)
    (ev_customer self) (ev_valid self) p.

(** [Model.save] on an event row. *)
Definition event_save (self : Event) : M EventStore unit :=
  modify (fun st =>
    mkEventStore (<[ev_stripe_id self := self]> (events st))
      (exception_log st) (sent st) (outside st)).

(** [signal.send(...)]: the broadcast is recorded. *)
Definition send (s : Signal) : M EventStore unit :=
  modify (fun st =>
    mkEventStore (events st) (exception_log st) (sent st ++ [s]) (outside st)).

(** Truthiness of the tri-state flag. *)
Definition truthy (v : option bool) : bool :=
  match v with
  | Some true => true
  | _ => false
  end.

(** [Event.message] (a property) *)
Definition message (self : Event) : option Msg :=
  if truthy (ev_valid self) then Some (ev_webhook_message self) else None.

(** [Event.validate]; the mutated [self] is returned. *)
Definition validate (self : Event) : M EventStore Event :=
  validated_message ←
    (fun st => let '(r, o) := api_retrieve_message self (outside st) in
               (r, mkEventStore (events st) (exception_log st) (sent st) o));
  let self := set_valid self
                (Some (msg_eq (ev_webhook_message self) validated_message)) in
  event_save self ;;
  mret self.

(** [EventProcessingException.log]: Django refuses to create a row
    that points to an event object that was never saved, one that has
    no row. *)
Definition log (data : option string) (exception : Exc) (event : Event)
    : M EventStore unit :=
  fun st =>
    match events st !! ev_stripe_id event with
    | None =>
        (Raise (exc ValueError
           "save() prohibited to prevent data loss due to unsaved related object 'event'."),
         st)
    | Some _ =>
        (Ok tt,
         mkEventStore (events st)
           (exception_log st ++
              [mkEventProcessingException (Some (ev_stripe_id event)) (str_or data "")
                 (exc_str exception) (format_exc exception)])
           (sent st) (outside st))
    end.

(** [Event.send_signal] *)
Definition send_signal (self : Event) : M EventStore unit :=
  if bool_decide (ev_type self ∈ WEBHOOK_SIGNALS)
  then send (WebhookSignal (ev_type self) self)
  else mret tt.

(** [self.message["data"]] *)
Definition message_data (self : Event) : M EventStore Data :=
  match message self with
  | None => raise (exc TypeError "'NoneType' object is not subscriptable")
  | Some m =>
      match msg_data m with
      | Some d => mret d
      | None => raise (exc KeyError "'data'")
      end
  end.

(** Inside [process] the event object sits beside the store: [self]
    reads it, [on_store] runs what only touches the store. *)
Definition self_now : M (Event * EventStore) Event :=
  fun s => (Ok s.1, s).

Definition on_store {A} (m : M EventStore A) : M (Event * EventStore) A :=
  fun s => let '(r, st') := m s.2 in (r, (s.1, st')).

(** The [try] block of [process]. *)
Definition process_try (event_type event_subtype : string)
    : M (Event * EventStore) unit :=
  self ← self_now;
  data ← on_store (message_data self);
  call_handlers data event_type event_subtype ;;
  self ← self_now;
  on_store (send_signal self) ;;
  modify (fun s : Event * EventStore => (set_processed s.1 true, s.2)) ;;
  self ← self_now;
  on_store (event_save self).

(** The [except StripeError as exc] block of [process]. *)
Definition process_except (e : Exc) : M (Event * EventStore) unit :=
  self ← self_now;
  on_store (log (exc_http_body e) e self) ;;
  on_store (send (WebhookProcessingError (exc_http_body e) e)).

(** [Event.process]; the event object as the call leaves it is
    returned. *)
Definition process (self : Event) : M EventStore Event :=
  fun st =>
    if truthy (ev_valid self) && negb (ev_processed self) then
      match split_dot (ev_type self) with
      | None =>
          (Raise (exc ValueError "not enough values to unpack (expected 2, got 1)"), st)
      | Some (event_type, event_subtype) =>
          let '(r, (self', st')) :=
            try_except (process_try event_type event_subtype) is_StripeError
              process_except (self, st) in
          (match r with
           | Ok _ => Ok self'
           | Raise e => Raise e
           end, st')
      end
    else (Ok self, st).

End Events.

Arguments Event Msg : clear implicits.
Arguments EventStore R Msg : clear implicits.
Arguments Signal Msg : clear implicits.
Arguments mkEvent {Msg} _ _ _ _ _ _.
Arguments ev_stripe_id {Msg} _.
Arguments ev_type {Msg} _.
Arguments ev_webhook_message {Msg} _.
Arguments ev_customer {Msg} _.
Arguments ev_valid {Msg} _.
Arguments ev_processed {Msg} _.
Arguments WebhookSignal {Msg} _ _.
Arguments WebhookProcessingError {Msg} _ _.
Arguments mkEventStore {R Msg} _ _ _ _.
Arguments events {R Msg} _.
Arguments exception_log {R Msg} _.
Arguments sent {R Msg} _.
Arguments outside {R Msg} _.
Arguments set_valid {Msg}.
Arguments set_processed {Msg}.
Arguments event_save {R Msg}.
Arguments send {R Msg}.
Arguments message {Msg}.
Arguments validate {R Msg}.
Arguments log {R Msg}.
Arguments send_signal {R Msg}.
Arguments message_data {R Msg Data}.
Arguments self_now {R Msg}.
Arguments on_store {R Msg A}.
Arguments process_try {R Msg Data}.
Arguments process_except {R Msg}.
Arguments process {R Msg Data}.

(** ** Transfer reconciliation *)

Record Transfer := mkTransfer {
  tr_stripe_id : string;
  tr_status : string;
  tr_event : option string;                 (* ForeignKey("Event", null=True) *)
  tr_amount : Z;
  tr_description : option string
}.

Record TransferChargeFee := mkTransferChargeFee {
  fee_transfer : string;                    (* ForeignKey(Transfer) *)
  fee_amount : Q;
  fee_application : option string;
  fee_description : option string;
  fee_kind : string
}.

(** One element of [stripe_object["summary"]["charge_fee_details"]];
    an outer [None] is a missing key, an inner one a JSON null. *)
Record FeeDetail := mkFeeDetail {
  fd_amount : Z;
  fd_application : option (option string);
  fd_description : option (option string);
  fd_type : string
}.

(** The transfer payload. *)
Record TransferData := mkTransferData {
  td_id : string;
  td_status : string;
  td_amount : Z;
  td_description : option string;
  td_charge_fee_details : list FeeDetail
}.

(** What [process_transfer] reads of the triggering event. *)
Record EventRef := mkEventRef {
  er_stripe_id : string;
  er_type : string
}.

Section Transfers.

(** The provider's state. *)
Variable R : Type.

(** [self.api_retrieve().status], the remote read behind
    [StripeTransfer.update_status]. *)
Variable api_retrieve_status : Transfer -> M R string.

Inductive TransferCall :=
| UpdateStatus (stripe_id : string).

Record TransferStore := mkTransferStore {
  transfers : gmap string Transfer;         (* the transfer table, by [stripe_id] *)
  charge_fee_details : list TransferChargeFee;
  status_calls : list TransferCall;
  provider : R
}.

(** [Model.save] on a transfer row. *)
Definition transfer_save (self : Transfer) : M TransferStore unit :=
  modify (fun st =>
    mkTransferStore (<[tr_stripe_id self := self]> (transfers st))
      (charge_fee_details st) (status_calls st) (provider st)).

(** Modelled from the spec: [StripeTransfer._create_from_stripe_object]
    lives in [stripe_objects.py]; it builds the row from the payload's
    fields and saves it ("if none exists, a new row is created"). *)
Definition _create_from_stripe_object (data : TransferData) : M TransferStore Transfer :=
  let instance := mkTransfer (td_id data) (td_status data) None
                    (td_amount data) (td_description data) in
  transfer_save instance ;;
  mret instance.

(** Modelled from the spec: [StripeTransfer.update_status] lives in
    [stripe_objects.py]; it is "a status-refresh call to the remote
    provider", whose answer becomes the row's [status]. *)
Definition update_status (self : Transfer) : M TransferStore Transfer :=
  status ←
    (fun st => let '(r, p) := api_retrieve_status self (provider st) in
               (r, mkTransferStore (transfers st) (charge_fee_details st)
                     (status_calls st ++ [UpdateStatus (tr_stripe_id self)]) p));
  let self := mkTransfer (tr_stripe_id self) status (tr_event self)
                (tr_amount self) (tr_description self) in
  transfer_save self ;;
  mret self.

(** [transfer.charge_fee_details.create(...)] *)
Definition fee_row (transfer : Transfer) (fee : FeeDetail) : TransferChargeFee :=
  mkTransferChargeFee (tr_stripe_id transfer) (fd_amount fee # 100)
    (default (Some "") (fd_application fee))
    (default (Some "") (fd_description fee))
    (fd_type fee).

Definition create_fee (transfer : Transfer) (fee : FeeDetail) : M TransferStore unit :=
  fun st =>
    if fits_decimal_7_2 (fd_amount fee) then
      (Ok tt,
       mkTransferStore (transfers st)
         (charge_fee_details st ++ [fee_row transfer fee])
         (status_calls st) (provider st))
    else (Raise decimal_overflow, st).

Definition set_event (self : Transfer) (event : option EventRef) : Transfer :=
  mkTransfer (tr_stripe_id self) (tr_status self) (er_stripe_id <$> event)
    (tr_amount self) (tr_description self).

Definition set_status (self : Transfer) (status : string) : Transfer :=
  mkTransfer (tr_stripe_id self) status (tr_event self)
    (tr_amount self) (tr_description self).

(** [event and event.type == "transfer.updated"] *)
Definition is_transfer_updated (event : option EventRef) : bool :=
  match event with
  | Some e => bool_decide (er_type e = "transfer.updated")
  | None => false
  end.

(** [Transfer.process_transfer] *)
Definition process_transfer (event : option EventRef) (stripe_object : TransferData)
    : M TransferStore unit :=
  st ← get;
  '(transfer, created) ←
    match transfers st !! td_id stripe_object with
    | Some transfer => mret (transfer, false)
    | None => transfer ← _create_from_stripe_object stripe_object;
              mret (transfer, true)
    end;
  let transfer := set_event transfer event in
  transfer ←
    (if created : bool then
       transfer_save transfer ;;
       for_each (td_charge_fee_details stripe_object) (create_fee transfer) ;;
       mret transfer
     else
       let transfer := set_status transfer (td_status stripe_object) in
       transfer_save transfer ;;
       mret transfer);
  if is_transfer_updated event then
    transfer ← update_status transfer;
    transfer_save transfer
  else mret tt.

End Transfers.

Arguments TransferStore R : clear implicits.
Arguments mkTransferStore {R} _ _ _ _.
Arguments transfers {R} _.
Arguments charge_fee_details {R} _.
Arguments status_calls {R} _.
Arguments provider {R} _.
Arguments transfer_save {R}.
Arguments _create_from_stripe_object {R}.
Arguments update_status {R}.
Arguments create_fee {R}.
Arguments process_transfer {R}.

(** ** Subscription: the remaining predicate *)

(** [Subscription.is_status_temporarily_current], as a truth value. *)
Definition is_status_temporarily_current (self : Subscription) : bool :=
  match sub_canceled_at self with
  | Some canceled_at =>
      bool_decide (sub_start self < canceled_at) && sub_cancel_at_period_end self
  | None => false
  end.

(** ** Invoice items by line id *)

(** The item rows of an invoice that carry a given line id: what
    [invoice.items.filter(stripe_id=id)] ranges over. *)
Definition rows_for (invoice : Invoice) (id : string) (l : list InvoiceItem)
    : list InvoiceItem :=
  filter (fun it => is_item_of invoice id it = true) l.

(** ** Customer: cards, charging, invoicing *)

(** [Customer.has_valid_card] *)
Definition has_valid_card (self : Customer) : bool :=
  bool_decide (cust_default_source self ≠ None).

(** [Customer.can_charge] *)
Definition can_charge (self : Customer) : bool :=
  has_valid_card self && bool_decide (cust_date_purged self = None).

Section CustomerBilling.

(** The provider's state; what the provider answers an invoice
    creation and a subscription with. *)
Variables (R RemoteInvoice StripeSubscriptionData : Type).

(** [Invoice._api_create(customer=self.stripe_id)] and [invoice.pay()]. *)
Variable invoice_api_create : Customer -> M R RemoteInvoice.
Variable invoice_pay : RemoteInvoice -> M R unit.

(** [StripeCustomer.subscribe(plan, **kwargs)], the inherited method. *)
Variable super_subscribe : Customer -> PlanArg -> M R StripeSubscriptionData.

(** [Subscription.sync_from_stripe_data] *)
Variable sync_from_stripe_data :
  StripeSubscriptionData -> M (list Subscription * R) Subscription.

(** A remote call leaves the subscription table and the record of
    cancellations alone. *)
Definition on_rest {A} (m : M R A) : M (World R) A :=
  fun w => let '(r, rest') := m (rest w) in
           (r, mkWorld (subscriptions w) (calls w) rest').

(** [Customer.send_invoice] *)
Definition send_invoice (self : Customer) : M (World R) bool :=
  try_except
    (invoice ← on_rest (invoice_api_create self);
     on_rest (invoice_pay invoice) ;;
     mret true)
    is_InvalidRequestError
    (fun _ => mret false).

(** [Customer.subscribe] *)
Definition subscribe (self : Customer) (plan : PlanArg) (charge_immediately : bool)
    : M (World R) Subscription :=
  stripe_subscription ← on_rest (super_subscribe self plan);
  (if charge_immediately then send_invoice self ;; mret tt else mret tt) ;;
  sync_subscription sync_from_stripe_data stripe_subscription.

End CustomerBilling.

Arguments on_rest {R A}.
Arguments send_invoice {R RemoteInvoice}.
Arguments subscribe {R RemoteInvoice StripeSubscriptionData}.

Section CustomerCards.

(** The provider's state; what the provider says of a customer and of
    a card it has just attached. *)
Variables (R RemoteCustomer StripeCardData : Type).

Variable customer_api_delete : Customer -> M R unit.
Variable card_api_delete : Card -> M R unit.
Variable super_purge : Customer -> Customer.

(** [self.api_retrieve()] and [getattr(stripe_customer, 'deleted', False)]. *)
Variable customer_api_retrieve : Customer -> M R RemoteCustomer.
Variable deleted : RemoteCustomer -> bool.

(** [StripeCustomer.add_card(source, set_default)] and
    [Card.sync_from_stripe_data]. *)
Variable super_add_card : Customer -> string -> bool -> M R StripeCardData.
Variable card_sync_from_stripe_data : StripeCardData -> M (Store R) Card.

(** What [purge] does once the remote deletion is behind it: the
    cards, the inherited purge, the date and the save. *)
Definition purge_locally (self : Customer) (now : datetime) (st : Store R)
    : result Customer * Store R :=
  match for_each (filter (fun c => card_customer c = cust_id self) (cards st))
          (card_remove card_api_delete) st with
  | (Ok _, s') =>
      let self' := purged_self super_purge self now in
      (Ok self', mkStore (cards s') (<[cust_id self' := self']> (customers s'))
                   (remote s'))
  | (Raise e, s') => (Raise e, s')
  end.

(** [Customer.delete]: [purge] does the work, and the inherited
    [delete] is not called. *)
Definition delete (self : Customer) (now : datetime) : M (Store R) unit :=
  purge customer_api_delete card_api_delete super_purge self now ;;
  mret tt.

(** [Customer._sync] *)
Definition _sync (self : Customer) (now : datetime) : M (Store R) unit :=
  stripe_customer ← on_remote (customer_api_retrieve self);
  if deleted stripe_customer then
    purge customer_api_delete card_api_delete super_purge self now ;;
    mret tt
  else mret tt.

(** [Customer.add_card]; the new card and the mutated [self] are
    returned. *)
Definition add_card (self : Customer) (source : string) (set_default : bool)
    : M (Store R) (Card * Customer) :=
  new_stripe_card ← on_remote (super_add_card self source set_default);
  new_card ← card_sync_from_stripe_data new_stripe_card;
  if set_default then
    let self := mkCustomer (cust_id self) (cust_stripe_id self) (cust_subscriber self)
                  (Some (card_stripe_id new_card)) (cust_date_purged self) in
    customer_save self ;;
    mret (new_card, self)
  else mret (new_card, self).

End CustomerCards.

Arguments purge_locally {R}.
Arguments delete {R}.
Arguments _sync {R RemoteCustomer}.
Arguments add_card {R StripeCardData}.

(** ** Charge: the receipt *)

Record Charge := mkCharge {
  charge_stripe_id : string;
  charge_customer : Z;                      (* ForeignKey("Customer") *)
  charge_receipt_sent : bool
}.

Record EmailMessage := mkEmailMessage {
  email_subject : string;
  email_body : string;
  email_to : list string;
  email_from : string
}.

Section ChargeReceipt.

(** The state of everything outside the charge table and the mail
    queue; a site row. *)
Variables (R Site : Type).

(** [Site.objects.get_current()] and
    [getattr(settings, "DEFAULT_HTTP_PROTOCOL", "http")]. *)
Variable site_get_current : M R Site.
Variable DEFAULT_HTTP_PROTOCOL : string.

(** [render_to_string(template, ctx)] for the context of the charge,
    the site and the protocol; and [str.strip]. *)
Variable render_to_string : string -> Charge -> Site -> string -> M R string.
Variable strip : string -> string.

(** [self.customer.subscriber.email] *)
Variable subscriber_email : Charge -> M R string.

(** [djstripe_settings.INVOICE_FROM_EMAIL] *)
Variable INVOICE_FROM_EMAIL : string.

(** What [EmailMessage.send] returns for a message: the number sent. *)
Variable email_send : EmailMessage -> M R Z.

Record ChargeStore := mkChargeStore {
  charges : gmap string Charge;             (* the charge table, by [stripe_id] *)
  handed_over : list EmailMessage;          (* messages given to [send], oldest first *)
  elsewhere : R
}.

Definition on_elsewhere {A} (m : M R A) : M ChargeStore A :=
  fun st => let '(r, e) := m (elsewhere st) in
            (r, mkChargeStore (charges st) (handed_over st) e).

(** [EmailMessage(...).send()] *)
Definition send_message (m : EmailMessage) : M ChargeStore Z :=
  fun st => let '(r, e) := email_send m (elsewhere st) in
            (r, mkChargeStore (charges st) (handed_over st ++ [m]) e).

(** [Model.save] on a charge row. *)
Definition charge_save (self : Charge) : M ChargeStore unit :=
  modify (fun st =>
    mkChargeStore (<[charge_stripe_id self := self]> (charges st))
      (handed_over st) (elsewhere st)).

(** [Charge.send_receipt]; the mutated [self] is returned. *)
Definition send_receipt (self : Charge) : M ChargeStore Charge :=
  if negb (charge_receipt_sent self) then
    site ← on_elsewhere site_get_current;
    let protocol := DEFAULT_HTTP_PROTOCOL in
    subject ← on_elsewhere
                (render_to_string "djstripe/email/subject.txt" self site protocol);
    let subject := strip subject in
    message ← on_elsewhere
                (render_to_string "djstripe/email/body.txt" self site protocol);
    to ← on_elsewhere (subscriber_email self);
    num_sent ← send_message (mkEmailMessage subject message [to] INVOICE_FROM_EMAIL);
    let self := mkCharge (charge_stripe_id self) (charge_customer self)
                  (bool_decide (num_sent > 0)) in
    charge_save self ;;
    mret self
  else mret self.

End ChargeReceipt.

Arguments ChargeStore R : clear implicits.
Arguments mkChargeStore {R} _ _ _.
Arguments charges {R} _.
Arguments handed_over {R} _.
Arguments elsewhere {R} _.
Arguments on_elsewhere {R A}.
Arguments send_message {R}.
Arguments charge_save {R}.
Arguments send_receipt {R Site}.

(** ** Concrete rows and providers used by the examples *)

Module Examples.

Definition alice : Customer := mkCustomer 1 "cus_1" (Some 7) (Some "card_1") None.

Definition gold_trial : Subscription :=
  mkSubscription "sub_1" 1 7 "trialing" 100 5000 (Some 2000) None false.

Definition silver : Subscription :=
  mkSubscription "sub_2" 1 8 "active" 100 5000 None None false.

(** A provider that accepts every cancellation and answers with the
    subscription marked cancelled. *)
Definition accept_cancel (s : Subscription) (at_period_end : bool)
    : M unit Subscription :=
  mret (mkSubscription (sub_stripe_id s) (sub_customer s) (sub_plan s) "canceled"
          (sub_start s) (sub_current_period_end s) (sub_trial_end s)
          (Some 1000) at_period_end).

(** A sync that replaces the row with the same [stripe_id]. *)
Definition replace_row (data : Subscription) : M (list Subscription * unit) Subscription :=
  fun st =>
    (Ok data,
     (map (fun s => if bool_decide (sub_stripe_id s = sub_stripe_id data)
                    then data else s) st.1, tt)).

Definition one_trial_world : World unit := mkWorld [gold_trial] [] tt.

(** Python's [int] on the strings used below: a string of decimal
    digits converts, a word is refused. *)
Fixpoint digits_value (s : string) (acc : Z) : option Z :=
  match s with
  | EmptyString => Some acc
  | String c r =>
      let n := Z.of_nat (nat_of_ascii c) in
      if bool_decide (48 <= n <= 57) then digits_value r (10 * acc + (n - 48))
      else None
  end.

Definition int_of_digits (s : string) : result Z :=
  match s with
  | EmptyString => Raise (exc ValueError "invalid literal for int() with base 10: ''")
  | _ =>
      match digits_value s 0 with
      | Some n => Ok n
      | None =>
          Raise (exc ValueError ("invalid literal for int() with base 10: '" ++ s ++ "'"))
      end
  end.

Definition empty_world : World unit := mkWorld [] [] tt.

(** The [period] object of a line, and [convert_tstamp] on it: a
    missing or zero field converts to [None]. *)
Record period := mkPeriod { p_start : option Z; p_end : option Z }.

Definition convert (response : period) (field_name : string) : option datetime :=
  let field := if bool_decide (field_name = "start") then p_start response
               else if bool_decide (field_name = "end") then p_end response
               else None in
  match field with
  | Some 0 => None
  | other => other
  end.

Definition no_plans (stripe_id : string) : option string := None.

(** The database's refusal of a NULL, in SQLite's words. *)
Definition null_refused (column : string) : Exc :=
  exc IntegrityError ("NOT NULL constraint failed: djstripe_invoiceitem." ++ column).

(** The inherited sync: the row with the payload's [stripe_id], or a
    fresh one. *)
Definition fetch_or_new (data : InvoiceData period) : M (Db unit) Invoice :=
  fun db =>
    match filter (fun i => inv_stripe_id i = data_stripe_id data) (invoices db) with
    | i :: _ => (Ok i, db)
    | [] =>
        let i := mkInvoice (Z.of_nat (length (invoices db)) + 1) (data_stripe_id data)
                   1 false false 900 (Some 1) in
        (Ok i, mkDb (invoices db ++ [i]) (items db) (other db))
    end.

Definition no_charge_data (id : string) : M (Db unit) unit := mret tt.
Definition no_charge_sync (data : unit) : M (Db unit) unit := mret tt.
Definition no_receipt (charge : unit) : M (Db unit) unit := mret tt.

Definition line (id : string) (period_end : Z) : LineItem period :=
  mkLineItem id 1500 "usd" false None "subscription" None
    (mkPeriod (Some 10) (Some period_end)) (Some 1).

(** Two lines whose later period end comes first. *)
Definition two_lines : InvoiceData period :=
  mkInvoiceData "in_1" (Some [line "a" 300; line "b" 200]) None.

Definition empty_db : Db unit := mkDb [] [] tt.

Definition unpaid : Invoice := mkInvoice 1 "in_1" 1 false false 900 (Some 1).

Definition one_unpaid_db : Db unit := mkDb [unpaid] [] tt.

Definition no_remote_invoices (self : Customer) : M (Db unit) (list (InvoiceData period)) :=
  mret [].

(** A provider that answers every retry with the given error. *)
Definition retry_fails (e : Exc) (invoice : Invoice) : M (Db unit) bool :=
  raise e.

Definition already_paid (c : ExcClass) : Exc := exc c "Invoice is already paid".

(** Events whose messages are plain strings. *)
Definition charge_event (valid : option bool) : Event string :=
  mkEvent "evt_1" "charge.succeeded" "payload" (Some 1) valid false.

Definition whole_message (m : string) : option string := Some m.

(** A provider whose copy of every event differs from what was posted. *)
Definition tampered (self : Event string) : M unit string := mret "other payload".

(** Handlers that fail with a provider error carrying a body. *)
Definition card_declined : Exc :=
  mkExc CardError "Your card was declined." (Some "{error}").

Definition failing_handlers (data type subtype : string)
    : M (Event string * EventStore unit string) unit :=
  raise card_declined.

Definition known_signals : gset string := {[ "charge.succeeded" ]}.

Definition traceback_of (e : Exc) : string := "Traceback: " ++ exc_str e.

Definition no_events : EventStore unit string := mkEventStore ∅ [] [] tt.

(** A store that holds the row of [charge_event (Some true)]. *)
Definition stored_event : EventStore unit string :=
  mkEventStore {[ "evt_1" := charge_event (Some true) ]} [] [] tt.

(** A provider that knows the customers in a set: deleting a known
    one forgets it, deleting an unknown one is refused. *)
Definition delete_known (self : Customer) : M (gset string) unit :=
  fun known =>
    if bool_decide (cust_stripe_id self ∈ known)
    then (Ok tt, known ∖ {[ cust_stripe_id self ]})
    else (Raise (exc InvalidRequestError ("No such customer: " ++ cust_stripe_id self)),
          known).

Definition card_delete_accepted (self : Card) : M (gset string) unit := mret tt.

(** A provider that refuses to delete a card for a reason of its own. *)
Definition card_refused : Exc :=
  exc InvalidRequestError "Received unknown parameter: expand".

Definition card_delete_refused (self : Card) : M (gset string) unit :=
  raise card_refused.

Definition keep_columns (self : Customer) : Customer := self.

Definition visa : Card := mkCard "card_1" 1.

Definition alice_store : Store (gset string) :=
  mkStore [visa] {[ 1 := alice ]} {[ "cus_1" ]}.

(** What the first purge of [alice] returns and leaves behind. *)
Definition alice_purged : Customer := mkCustomer 1 "cus_1" None None (Some 1000).

Definition after_first_purge : Store (gset string) :=
  (purge delete_known card_delete_accepted keep_columns alice 1000 alice_store).2.

(** A transfer already mirrored, with no event attached, and a payload
    for it. *)
Definition pending_transfer : Transfer :=
  mkTransfer "tr_1" "pending" None 2500 (Some "payout").

Definition paid_payload : TransferData :=
  mkTransferData "tr_1" "paid" 2500 (Some "payout")
    [mkFeeDetail 102 None (Some (Some "Stripe processing fees")) "stripe_fee"].

Definition transfer_paid_event : EventRef := mkEventRef "evt_2" "transfer.paid".

Definition remote_status (self : Transfer) : M unit string := mret "paid".

Definition one_transfer : TransferStore unit :=
  mkTransferStore {[ "tr_1" := pending_transfer ]} [] [] tt.

End Examples.

(** ** Further rows and providers used by the examples *)

Module MoreExamples.

(** A subscription whose trial ends at the very moment of the call. *)
Definition trial_ends_now : Subscription :=
  mkSubscription "sub_3" 1 7 "trialing" 100 5000 (Some 1500) None false.

Definition trial_ends_now_world : World unit :=
  mkWorld [trial_ends_now] [] tt.

(** A provider that refuses every cancellation. *)
Definition stale : Exc := exc InvalidRequestError "No such subscription: sub_1".

Definition refuse_cancel (s : Subscription) (at_period_end : bool)
    : M unit Subscription :=
  raise stale.

Definition expired : Subscription :=
  mkSubscription "sub_4" 1 7 "active" 100 1200 None None false.

(** A provider that cannot be reached. *)
Definition unreachable : Exc := exc APIConnectionError "Connection refused".

Definition delete_unreachable (self : Customer) : M (gset string) unit :=
  raise unreachable.

Definition card_delete_unreachable (self : Card) : M (gset string) unit :=
  raise unreachable.

(** A provider that reports whether it still knows the customer. *)
Definition retrieve_known (self : Customer) : M (gset string) bool :=
  fun known => (Ok (bool_decide (cust_stripe_id self ∉ known)), known).

(** A store in which the provider has already forgotten [alice]. *)
Definition forgotten_store : Store (gset string) :=
  mkStore [Examples.visa] {[ 1 := Examples.alice ]} ∅.

(** Attaching a card: the provider answers with the new card's id, and
    the sync adds the row. *)
Definition attach_card (self : Customer) (source : string) (set_default : bool)
    : M (gset string) string :=
  mret ("card_" ++ source).

Definition add_row (id : string) : M (Store (gset string)) Card :=
  fun st =>
    let card := mkCard id 1 in
    (Ok card, mkStore (cards st ++ [card]) (customers st) (remote st)).

Definition bob : Customer := mkCustomer 2 "cus_2" (Some 8) None None.

Definition bob_store : Store (gset string) :=
  mkStore [] {[ 2 := bob ]} {[ "cus_2" ]}.

(** Invoicing: a provider with nothing to invoice, and one whose
    payment is declined. *)
Definition nothing_to_invoice (self : Customer) : M unit string :=
  raise (exc InvalidRequestError "Nothing to invoice for customer").

Definition create_invoice (self : Customer) : M unit string := mret "in_9".

Definition pay_declined (invoice : string) : M unit unit :=
  raise Examples.card_declined.

Definition pay_accepted (invoice : string) : M unit unit := mret tt.

Definition accept_subscribe (self : Customer) (plan : PlanArg)
    : M unit Subscription :=
  mret (mkSubscription "sub_9" (cust_id self) 7 "active" 1500 9000 None None false).

(** The sync of a new subscription adds its row. *)
Definition append_row (data : Subscription) : M (list Subscription * unit) Subscription :=
  fun st => (Ok data, ((st.1 ++ [data])%list, tt)).

(** Receipts: templates, recipient and a mail backend that delivers
    every message. *)
Definition this_site : M unit string := mret "example.com".

Definition render (template : string) (charge : Charge) (site protocol : string)
    : M unit string :=
  mret (template ++ ":" ++ charge_stripe_id charge).

Definition no_strip (s : string) : string := s.

Definition recipient (charge : Charge) : M unit string := mret "alice@example.com".

Definition deliver (m : EmailMessage) : M unit Z := mret 1.

Definition fresh_charge : Charge := mkCharge "ch_1" 1 false.

Definition no_charges : ChargeStore unit := mkChargeStore ∅ [] tt.

Definition receipt : EmailMessage :=
  mkEmailMessage "djstripe/email/subject.txt:ch_1" "djstripe/email/body.txt:ch_1"
    ["alice@example.com"] "billing@example.com".

(** A payload in which one line id occurs twice. *)
Definition repeated_lines : list (LineItem Examples.period) :=
  [Examples.line "a" 300; Examples.line "a" 200; Examples.line "b" 100].

(** A store with a paid and an unpaid invoice of [alice]. *)
Definition paid : Invoice := mkInvoice 2 "in_2" 1 true true 800 (Some 1).

Definition mixed_db : Db unit := mkDb [Examples.unpaid; paid] [] tt.

Definition retry_accepts (invoice : Invoice) : M (Db unit) bool := mret true.

(** A provider that refuses to retry what is already paid or closed. *)
Definition retry_refuses_settled (invoice : Invoice) : M (Db unit) bool :=
  if inv_paid invoice || inv_closed invoice
  then raise (exc InvalidRequestError "Invoice is closed")
  else mret true.

(** A provider's store that mirrors no transfer yet, and a payload
    whose second fee does not fit the amount column. *)
Definition no_transfers : TransferStore unit := mkTransferStore ∅ [] [] tt.

Definition oversized_payload : TransferData :=
  mkTransferData "tr_2" "paid" 2500 None
    [mkFeeDetail 102 None None "stripe_fee";
     mkFeeDetail 10000000 None None "application_fee";
     mkFeeDetail 5 None None "stripe_fee"].

Definition transfer_updated_event : EventRef := mkEventRef "evt_3" "transfer.updated".

End MoreExamples.

(** * Properties *)

(** Unfolds the monad's operations, in the goal or in a hypothesis. *)
Ltac unfold_monad :=
  unfold mbind, M_bind, bind, mret, M_ret, ret, raise, modify, get, put, try_except.
Tactic Notation "unfold_monad" "in" hyp(H) :=
  unfold mbind, M_bind, bind, mret, M_ret, ret, raise, modify, get, put, try_except in H.

(** ** Customer: subscription accessors *)

Section CustomerSubscriptionFacts.

Context {R StripeSubscriptionData : Type}.
Variable stripe_cancel : Subscription -> bool -> M R StripeSubscriptionData.
Variable sync_from_stripe_data :
  StripeSubscriptionData -> M (list Subscription * R) Subscription.
Variable int : string -> result Z.

Lemma customer_subscriptions_eq (self : Customer) (w : World R) :
  customer_subscriptions self w = (Ok (rows_of self w), w).
Proof. reflexivity. Qed.

(** C1: the [subscription] accessor answers [None] when the customer
    has no subscription row, the row itself when there is exactly one,
    and raises [MultipleSubscriptionException] when there are two or
    more; it never writes. *)
Theorem subscription_by_count (self : Customer) (w : World R) :
  subscription self w =
    match rows_of self w with
    | [] => (Ok None, w)
    | [s] => (Ok (Some s), w)
    | _ :: _ :: _ =>
        (Raise (exc MultipleSubscriptionException
           "This customer has multiple subscriptions. Use Customer.subscriptions to access them."), w)
    end.
Proof.
  unfold subscription, mbind, M_bind, bind.
  rewrite customer_subscriptions_eq.
  destruct (rows_of self w) as [|s [|s' l]]; reflexivity.
Qed.

(** C10: with no subscription row and [plan=None], the
    exactly-one-subscription check raises [TypeError]; nothing catches
    it, so [has_active_subscription] raises instead of answering
    [False]. *)
Theorem has_active_subscription_none_zero (self : Customer) (now : datetime)
    (w : World R) :
  rows_of self w = [] ->
  has_active_subscription int self PlanNone now w =
    (Raise (exc TypeError
       "plan cannot be None if more than one subscription exists for this customer."), w).
Proof.
  intros Hrows.
  unfold has_active_subscription, try_except, _plan_none_check, mbind, M_bind, bind.
  rewrite customer_subscriptions_eq, Hrows. reflexivity.
Qed.

(** Resolving the target only reads. *)
Lemma cancel_target_reads (self : Customer) (plan : PlanArg) (w : World R) :
  (cancel_target int self plan w).2 = w.
Proof.
  assert (Hget : forall id, (get_subscription_for int self id w).2 = w).
  { intros id. unfold get_subscription_for, customer_subscriptions_for, lift_result,
      mbind, M_bind, bind, mret, M_ret, ret.
    destruct (int id) as [plan_id|e]; [|reflexivity].
    rewrite customer_subscriptions_eq.
    destruct (filter _ (rows_of self w)) as [|s [|s' l]]; reflexivity. }
  destruct plan as [|p|id]; simpl; [|apply Hget..].
  unfold _plan_none_check, mbind, M_bind, bind.
  rewrite customer_subscriptions_eq.
  case_bool_decide; reflexivity.
Qed.

(** The remote calls [cancel_resolved] adds to the record. *)
Lemma cancel_resolved_calls (o : option Subscription) (at_period_end : bool)
    (now : datetime) (w : World R) :
  calls (cancel_resolved stripe_cancel o at_period_end now w).2 =
    (calls w ++
     match o with
     | Some s => [SubscriptionCancel s (if in_trial s now then false else at_period_end)]
     | None => []
     end)%list.
Proof.
  unfold cancel_resolved, try_except, subscription_cancel.
  destruct o as [s|]; simpl; [|by rewrite app_nil_r].
  destruct (stripe_cancel s _ (rest w)) as [[a|e] r]; simpl; [done|].
  destruct (is_InvalidRequestError (exc_class e)); reflexivity.
Qed.

Lemma sync_subscription_calls (data : StripeSubscriptionData) (w : World R) :
  calls (sync_subscription sync_from_stripe_data data w).2 = calls w.
Proof.
  unfold sync_subscription.
  destruct (sync_from_stripe_data data _) as [r [subs r']]. reflexivity.
Qed.

(** C2: when the subscription that [cancel_subscription] resolves has
    a [trial_end] strictly after now, exactly one remote cancellation
    is made, on that subscription and with [at_period_end=False],
    whatever the caller passed: the whole call is the one the caller
    would have got by passing [False]. *)
Theorem cancel_in_trial_is_immediate (self : Customer) (plan : PlanArg)
    (at_period_end : bool) (now : datetime) (w : World R)
    (s : Subscription) (t : datetime) :
  (cancel_target int self plan w).1 = Ok (Some s) ->
  sub_trial_end s = Some t ->
  t > now ->
  calls (cancel_subscription stripe_cancel sync_from_stripe_data int
           self plan at_period_end now w).2 =
    (calls w ++ [SubscriptionCancel s false])%list
  /\ cancel_subscription stripe_cancel sync_from_stripe_data int
       self plan at_period_end now w
     = (stripe_subscription ←
          try_except (subscription_cancel stripe_cancel s false)
            is_InvalidRequestError
            (fun e => raise (exc SubscriptionCancellationFailure
               ("Customer's information is not current with Stripe."
                ++ newline ++ exc_str e)));
        sync_subscription sync_from_stripe_data stripe_subscription) w.
Proof.
  intros Htarget Htrial Hfuture.
  pose proof (cancel_target_reads self plan w) as Hreads.
  assert (Htrue : in_trial s now = true).
  { unfold in_trial. rewrite Htrial. by apply bool_decide_eq_true_2. }
  assert (Hrun : cancel_subscription stripe_cancel sync_from_stripe_data int
                   self plan at_period_end now w
     = (stripe_subscription ←
          try_except (subscription_cancel stripe_cancel s false)
            is_InvalidRequestError
            (fun e => raise (exc SubscriptionCancellationFailure
               ("Customer's information is not current with Stripe."
                ++ newline ++ exc_str e)));
        sync_subscription sync_from_stripe_data stripe_subscription) w).
  { unfold cancel_subscription, mbind, M_bind, bind.
    destruct (cancel_target int self plan w) as [r w0].
    simpl in Htarget, Hreads. subst r w0.
    unfold cancel_resolved. by rewrite Htrue. }
  split; [|exact Hrun].
  unfold cancel_subscription, mbind, M_bind, bind.
  destruct (cancel_target int self plan w) as [r w0].
  simpl in Htarget, Hreads. subst r w0.
  pose proof (cancel_resolved_calls (Some s) at_period_end now w) as Hcalls.
  cbv beta iota in Hcalls. rewrite Htrue in Hcalls.
  destruct (cancel_resolved stripe_cancel (Some s) at_period_end now w)
    as [[data|e] w1]; simpl in Hcalls |- *.
  - by rewrite sync_subscription_calls.
  - done.
Qed.

End CustomerSubscriptionFacts.

Lemma cancel_in_trial_is_immediate_witness :
  calls (cancel_subscription Examples.accept_cancel Examples.replace_row
           Examples.int_of_digits Examples.alice PlanNone true 1500
           Examples.one_trial_world).2 =
    [SubscriptionCancel Examples.gold_trial false]
  /\ cancel_subscription Examples.accept_cancel Examples.replace_row
       Examples.int_of_digits Examples.alice PlanNone true 1500
       Examples.one_trial_world
     = (Ok (mkSubscription "sub_1" 1 7 "canceled" 100 5000 (Some 2000)
              (Some 1000) false),
        mkWorld [mkSubscription "sub_1" 1 7 "canceled" 100 5000 (Some 2000)
                   (Some 1000) false]
          [SubscriptionCancel Examples.gold_trial false] tt).
Proof.
  apply (cancel_in_trial_is_immediate Examples.accept_cancel Examples.replace_row
           Examples.int_of_digits Examples.alice PlanNone true 1500
           Examples.one_trial_world Examples.gold_trial 2000).
  - reflexivity.
  - reflexivity.
  - reflexivity.
Defined.

(** The same cancellation asked by the plan's key; a plan name is no
    key, and the conversion refuses it before anything is looked up. *)
Example cancel_in_trial_by_plan_key :
  calls (cancel_subscription Examples.accept_cancel Examples.replace_row
           Examples.int_of_digits Examples.alice (PlanId "7") true 1500
           Examples.one_trial_world).2 =
    [SubscriptionCancel Examples.gold_trial false].
Proof. reflexivity. Qed.

Example cancel_by_plan_name_raises :
  cancel_subscription Examples.accept_cancel Examples.replace_row
    Examples.int_of_digits Examples.alice (PlanId "gold") true 1500
    Examples.one_trial_world
  = (Raise (exc ValueError "invalid literal for int() with base 10: 'gold'"),
     Examples.one_trial_world).
Proof. reflexivity. Qed.

Example subscription_of_none :
  subscription Examples.alice Examples.empty_world = (Ok None, Examples.empty_world).
Proof. reflexivity. Qed.

Example subscription_of_one :
  subscription Examples.alice Examples.one_trial_world
  = (Ok (Some Examples.gold_trial), Examples.one_trial_world).
Proof. reflexivity. Qed.

Example subscription_of_two :
  (subscription Examples.alice
     (mkWorld [Examples.gold_trial; Examples.silver] [] tt)).1
  = Raise (exc MultipleSubscriptionException
      "This customer has multiple subscriptions. Use Customer.subscriptions to access them.").
Proof. reflexivity. Qed.

(** With one subscription row the same call answers whether that row
    is valid. *)
Example has_active_subscription_of_one :
  (has_active_subscription Examples.int_of_digits Examples.alice PlanNone 1500 Examples.one_trial_world).1
  = Ok true.
Proof. reflexivity. Qed.

Lemma has_active_subscription_none_zero_witness :
  rows_of Examples.alice Examples.empty_world = [] /\
  has_active_subscription Examples.int_of_digits Examples.alice PlanNone 1500 Examples.empty_world =
    (Raise (exc TypeError
       "plan cannot be None if more than one subscription exists for this customer."),
     Examples.empty_world).
Proof.
  split; [reflexivity|].
  apply (has_active_subscription_none_zero Examples.int_of_digits Examples.alice 1500 Examples.empty_world).
  reflexivity.
Defined.

(** ** Invoice sync *)

Section InvoiceFacts.

Context {R Period ChargeData ChargeRow : Type}.
Variable convert_tstamp : Period -> string -> option datetime.
Variable plan_from_stripe_id : string -> option string.
Variable not_null_error : string -> Exc.
Variable super_sync_from_stripe_data : InvoiceData Period -> M (Db R) Invoice.
Variable charge_api_retrieve : string -> M (Db R) ChargeData.
Variable charge_sync_from_stripe_data : ChargeData -> M (Db R) ChargeRow.
Variable charge_send_receipt : ChargeRow -> M (Db R) unit.
Variable customer_api_invoices : Customer -> M (Db R) (list (InvoiceData Period)).
Variable invoice_retry : Invoice -> M (Db R) bool.

Lemma set_period_end_twice (invoice : Invoice) (a b : option datetime) :
  set_period_end (set_period_end invoice a) b = set_period_end invoice b.
Proof. reflexivity. Qed.

(** One line leaves the invoice object with that line's period end. *)
Lemma sync_line_ok (invoice invoice' : Invoice) (item : LineItem Period) (db db' : Db R) :
  sync_line convert_tstamp plan_from_stripe_id not_null_error invoice item db
    = (Ok invoice', db') ->
  invoice' = set_period_end invoice (convert_tstamp (li_period item) "end").
Proof.
  unfold sync_line, mbind, M_bind, bind, mret, M_ret, ret.
  destruct (upsert_item _ _ _ _ _ db) as [[[]|e] db1]; congruence.
Qed.

(** The loop leaves the invoice object with the period end of the last
    line, and as it was when there is no line. *)
Lemma sync_lines_ok (lines : list (LineItem Period)) :
  forall (invoice invoice' : Invoice) (db db' : Db R),
  sync_lines convert_tstamp plan_from_stripe_id not_null_error invoice lines db
    = (Ok invoice', db') ->
  invoice' = match last lines with
             | Some item => set_period_end invoice (convert_tstamp (li_period item) "end")
             | None => invoice
             end.
Proof.
  induction lines as [|item lines IH]; intros invoice invoice' db db' Hrun.
  - cbn in *. unfold_monad in Hrun. congruence.
  - cbn [sync_lines] in Hrun. unfold_monad in Hrun.
    destruct (sync_line _ _ _ invoice item db) as [[invoice1|e] db1] eqn:Hline;
      [|congruence].
    apply sync_line_ok in Hline. apply IH in Hrun. subst invoice1.
    rewrite last_cons.
    destruct (last lines) as [item'|]; [|exact Hrun].
    by rewrite Hrun, set_period_end_twice.
Qed.

(** After [invoice.save()] the invoice table holds the invoice, and no
    other row with its key. *)
Lemma invoice_save_saves (invoice : Invoice) (db : Db R) :
  exists db',
    invoice_save invoice db = (Ok tt, db')
    /\ invoice ∈ invoices db'
    /\ (forall r, r ∈ invoices db' -> inv_id r = inv_id invoice -> r = invoice)
    /\ items db' = items db /\ other db' = other db.
Proof.
  unfold invoice_save. unfold_monad. eexists. split; [reflexivity|].
  destruct (existsb _ (invoices db)) eqn:Hex; cbn.
  - split_and!; [| |done..].
    + apply existsb_exists in Hex as (r & Hin & Hr).
      apply list_elem_of_In in Hin. apply bool_decide_eq_true in Hr.
      apply list_elem_of_fmap. exists r. by rewrite bool_decide_eq_true_2.
    + intros r Hin Hid. apply list_elem_of_fmap in Hin as (r0 & Hr & Hin).
      destruct (bool_decide (inv_id r0 = inv_id invoice)) eqn:Hb; subst r; [done|].
      by apply bool_decide_eq_false in Hb.
  - split_and!; [| |done..].
    + apply elem_of_app. right. apply list_elem_of_here.
    + intros r Hin Hid. apply elem_of_app in Hin as [Hin|Hin].
      * assert (existsb (fun r => bool_decide (inv_id r = inv_id invoice))
                  (invoices db) = true) as Htrue; [|congruence].
        apply existsb_exists. exists r. split; [by apply list_elem_of_In|].
        by apply bool_decide_eq_true_2.
      * by apply list_elem_of_singleton in Hin.
Qed.

(** C3: the invoice a sync returns is the one the inherited sync
    produced with [period_end] overwritten by the period end of the
    last line of the payload, in payload order; with no line it is the
    inherited one, [period_end] included.  That invoice is what
    [invoice.save()] writes: the invoice table holds it, as the only
    row with its key, when the charge of the payload is turned to, and
    at the end of the sync when the payload has no charge. *)
Theorem sync_period_end_is_last_line (data : InvoiceData Period) (send_receipt : bool)
    (db db0 db' : Db R) (invoice0 invoice : Invoice) :
  super_sync_from_stripe_data data db = (Ok invoice0, db0) ->
  sync_from_stripe_data convert_tstamp plan_from_stripe_id not_null_error
    super_sync_from_stripe_data charge_api_retrieve charge_sync_from_stripe_data
    charge_send_receipt data send_receipt db = (Ok invoice, db') ->
  invoice = match last (default [] (data_lines data)) with
            | Some item =>
                set_period_end invoice0 (convert_tstamp (li_period item) "end")
            | None => invoice0
            end
  /\ exists db2,
       invoice ∈ invoices db2
       /\ (forall r, r ∈ invoices db2 -> inv_id r = inv_id invoice -> r = invoice)
       /\ sync_charge charge_api_retrieve charge_sync_from_stripe_data
            charge_send_receipt data send_receipt db2 = (Ok tt, db')
       /\ (data_charge data = None -> db' = db2).
Proof.
  intros Hsuper Hrun.
  unfold sync_from_stripe_data, mbind, M_bind, bind in Hrun.
  rewrite Hsuper in Hrun.
  destruct (sync_lines _ _ _ invoice0 _ db0) as [[invoice1|e] db1] eqn:Hlines;
    [|congruence].
  apply sync_lines_ok in Hlines.
  destruct (invoice_save_saves invoice1 db1) as (db2 & Hsave & Hin & Honly & _).
  rewrite Hsave in Hrun.
  destruct (sync_charge _ _ _ data send_receipt db2) as [[[]|e] db3] eqn:Hcharge;
    [|congruence].
  unfold mret, M_ret, ret in Hrun. inversion Hrun; subst.
  split; [done|]. exists db2. split_and!; [done..|].
  intros Hnone. unfold sync_charge in Hcharge. rewrite Hnone in Hcharge.
  unfold mret, M_ret, ret in Hcharge. congruence.
Qed.

End InvoiceFacts.

Lemma sync_period_end_is_last_line_witness :
  mkInvoice 1 "in_1" 1 false false 900 (Some 200)
    = set_period_end (mkInvoice 1 "in_1" 1 false false 900 (Some 1)) (Some 200)
  /\ mkInvoice 1 "in_1" 1 false false 900 (Some 200)
     ∈ invoices
         (sync_from_stripe_data Examples.convert Examples.no_plans
            Examples.null_refused Examples.fetch_or_new Examples.no_charge_data
            Examples.no_charge_sync Examples.no_receipt Examples.two_lines true
            Examples.empty_db).2.
Proof.
  destruct (sync_period_end_is_last_line Examples.convert Examples.no_plans
              Examples.null_refused Examples.fetch_or_new Examples.no_charge_data
              Examples.no_charge_sync Examples.no_receipt Examples.two_lines true
              Examples.empty_db _
              (sync_from_stripe_data Examples.convert Examples.no_plans
                 Examples.null_refused Examples.fetch_or_new Examples.no_charge_data
                 Examples.no_charge_sync Examples.no_receipt Examples.two_lines true
                 Examples.empty_db).2
              _ (mkInvoice 1 "in_1" 1 false false 900 (Some 200)) eq_refl eq_refl)
    as (Hinvoice & db2 & Hin & _ & _ & Hnone).
  split; [exact Hinvoice|].
  rewrite (Hnone eq_refl). exact Hin.
Defined.

(** ** Invoice retry *)

Section RetryFacts.

Context {R Period ChargeData ChargeRow : Type}.
Variable convert_tstamp : Period -> string -> option datetime.
Variable plan_from_stripe_id : string -> option string.
Variable not_null_error : string -> Exc.
Variable super_sync_from_stripe_data : InvoiceData Period -> M (Db R) Invoice.
Variable charge_api_retrieve : string -> M (Db R) ChargeData.
Variable charge_sync_from_stripe_data : ChargeData -> M (Db R) ChargeRow.
Variable charge_send_receipt : ChargeRow -> M (Db R) unit.
Variable customer_api_invoices : Customer -> M (Db R) (list (InvoiceData Period)).
Variable invoice_retry : Invoice -> M (Db R) bool.

(** What the [try] statement makes of each outcome of [invoice.retry()]. *)
Lemma retry_one_outcome (invoice : Invoice) (db : Db R) :
  retry_one invoice_retry invoice db =
    match invoice_retry invoice db with
    | (Ok _, db') => (Ok tt, db')
    | (Raise e, db') =>
        if swallowed_by_retry e then (Ok tt, db') else (Raise e, db')
    end.
Proof.
  unfold retry_one, swallowed_by_retry. unfold_monad.
  destruct (invoice_retry invoice db) as [[b|e] db']; [reflexivity|].
  destruct (is_InvalidRequestError (exc_class e)); [|reflexivity].
  cbn. repeat case_bool_decide; done.
Qed.

(** An exception that leaves the loop was raised by one of the retries
    and is not one of the swallowed ones. *)
Lemma retry_loop_raises (qs : list Invoice) :
  forall (db db' : Db R) (e : Exc),
  for_each qs (retry_one invoice_retry) db = (Raise e, db') ->
  exists invoice db0,
    invoice ∈ qs /\ invoice_retry invoice db0 = (Raise e, db')
    /\ swallowed_by_retry e = false.
Proof.
  induction qs as [|invoice qs IH]; intros db db' e Hrun.
  - cbn in Hrun. unfold_monad in Hrun. congruence.
  - cbn [for_each] in Hrun. unfold bind in Hrun.
    rewrite retry_one_outcome in Hrun.
    destruct (invoice_retry invoice db) as [[b|e1] db1] eqn:Hretry.
    + apply IH in Hrun as (i & db0 & Hin & Hi & Hsw).
      exists i, db0. split_and!; [by apply list_elem_of_further|done..].
    + destruct (swallowed_by_retry e1) eqn:Hsw.
      * apply IH in Hrun as (i & db0 & Hin & Hi & Hsw').
        exists i, db0. split_and!; [by apply list_elem_of_further|done..].
      * inversion Hrun; subst. exists invoice, db.
        split_and!; [apply list_elem_of_here|done..].
Qed.

(** When every retry succeeds or raises a swallowed exception, the
    loop ends normally. *)
Lemma retry_loop_completes (qs : list Invoice) :
  (forall invoice db0 e db1, invoice ∈ qs ->
     invoice_retry invoice db0 = (Raise e, db1) -> swallowed_by_retry e = true) ->
  forall db : Db R, (for_each qs (retry_one invoice_retry) db).1 = Ok tt.
Proof.
  induction qs as [|invoice qs IH]; intros Hall db; [reflexivity|].
  cbn [for_each]. unfold bind. rewrite retry_one_outcome.
  assert (Hqs : forall db, (for_each qs (retry_one invoice_retry) db).1 = Ok tt).
  { apply IH. intros i db0 e db1 Hin. apply Hall. by apply list_elem_of_further. }
  destruct (invoice_retry invoice db) as [[b|e] db1] eqn:Hretry; [apply Hqs|].
  rewrite (Hall invoice db e db1 (list_elem_of_here _ _) Hretry). apply Hqs.
Qed.

(** The loop over a list in two pieces. *)
Lemma for_each_app {S A} (l1 l2 : list A) (body : A -> M S unit) (s : S) :
  for_each (l1 ++ l2) body s =
    match for_each l1 body s with
    | (Ok _, s') => for_each l2 body s'
    | (Raise e, s') => (Raise e, s')
    end.
Proof.
  revert s. induction l1 as [|x l1 IH]; intros s; [reflexivity|].
  cbn [for_each app]. unfold bind.
  destruct (body x s) as [[[]|e] s']; [apply IH|reflexivity].
Qed.

(** C4, amended: an exception raised by a retry is swallowed exactly
    when it is an [InvalidRequestError] whose message is "Invoice is
    already paid"; every other exception, whatever its class or
    message, leaves [retry_unpaid_invoices] unchanged, as does an
    exception of the sync that comes first; and when the sync succeeds
    and no retry raises anything else, the operation completes without
    raising. *)
Theorem retry_unpaid_invoices_outcome (self : Customer) (db : Db R) :
  let sync := _sync_invoices convert_tstamp plan_from_stripe_id not_null_error
                super_sync_from_stripe_data charge_api_retrieve
                charge_sync_from_stripe_data charge_send_receipt
                customer_api_invoices self in
  let run := retry_unpaid_invoices convert_tstamp plan_from_stripe_id not_null_error
               super_sync_from_stripe_data charge_api_retrieve
               charge_sync_from_stripe_data charge_send_receipt
               customer_api_invoices invoice_retry self in
  (forall invoice db0,
     retry_one invoice_retry invoice db0 =
       match invoice_retry invoice db0 with
       | (Ok _, db') => (Ok tt, db')
       | (Raise e, db') =>
           if swallowed_by_retry e then (Ok tt, db') else (Raise e, db')
       end)
  /\ (forall e db', run db = (Raise e, db') ->
        sync db = (Raise e, db')
        \/ exists invoice db0,
             invoice_retry invoice db0 = (Raise e, db')
             /\ swallowed_by_retry e = false)
  /\ ((sync db).1 = Ok tt ->
      (forall invoice db0 e db1,
         invoice_retry invoice db0 = (Raise e, db1) -> swallowed_by_retry e = true) ->
      (run db).1 = Ok tt)
  /\ (forall e db1, sync db = (Raise e, db1) -> run db = (Raise e, db1))
  /\ (forall db1 before invoice after db2 e db3,
        sync db = (Ok tt, db1) ->
        (unpaid_invoices self db1).1 = Ok (before ++ invoice :: after)%list ->
        for_each before (retry_one invoice_retry) db1 = (Ok tt, db2) ->
        invoice_retry invoice db2 = (Raise e, db3) ->
        swallowed_by_retry e = false ->
        run db = (Raise e, db3)).
Proof.
  intros sync run. split_and!.
  - apply retry_one_outcome.
  - intros e db' Hrun. subst run. unfold retry_unpaid_invoices in Hrun.
    unfold_monad in Hrun. fold sync in Hrun.
    destruct (sync db) as [[[]|e0] db1]; [|left; congruence].
    right. unfold unpaid_invoices in Hrun.
    apply retry_loop_raises in Hrun as (i & db0 & _ & Hi & Hsw). eauto.
  - intros Hsync Hall. subst run. unfold retry_unpaid_invoices.
    unfold_monad. fold sync.
    destruct (sync db) as [[[]|e0] db1]; [|discriminate Hsync].
    unfold unpaid_invoices. apply retry_loop_completes. eauto.
  - intros e db1 Hsync. subst run. unfold retry_unpaid_invoices.
    unfold_monad. fold sync. by rewrite Hsync.
  - intros db1 before invoice after db2 e db3 Hsync Hqs Hbefore Hretry Hsw.
    subst run. unfold retry_unpaid_invoices. unfold_monad. fold sync.
    rewrite Hsync. unfold unpaid_invoices in Hqs |- *. cbn in Hqs.
    injection Hqs as Hqs. rewrite Hqs, for_each_app, Hbefore.
    cbn [for_each]. unfold bind. by rewrite retry_one_outcome, Hretry, Hsw.
Qed.

End RetryFacts.

(** C4: the claim as written fails on a provider error of another class
    that carries the same message: [except InvalidRequestError] does
    not catch it, and the operation raises. *)
Lemma retry_other_class_counterexample :
  is_StripeError CardError = true
  /\ exc_str (Examples.already_paid CardError) = "Invoice is already paid"
  /\ retry_unpaid_invoices Examples.convert Examples.no_plans Examples.null_refused
       Examples.fetch_or_new
       Examples.no_charge_data Examples.no_charge_sync Examples.no_receipt
       Examples.no_remote_invoices
       (Examples.retry_fails (Examples.already_paid CardError))
       Examples.alice Examples.one_unpaid_db
     = (Raise (Examples.already_paid CardError), Examples.one_unpaid_db).
Proof. split_and!; reflexivity. Qed.

Lemma retry_unpaid_invoices_outcome_witness :
  (retry_unpaid_invoices Examples.convert Examples.no_plans Examples.null_refused
     Examples.fetch_or_new Examples.no_charge_data Examples.no_charge_sync
     Examples.no_receipt Examples.no_remote_invoices
     (Examples.retry_fails (Examples.already_paid InvalidRequestError))
     Examples.alice Examples.one_unpaid_db).1 = Ok tt
  /\ retry_unpaid_invoices Examples.convert Examples.no_plans Examples.null_refused
       Examples.fetch_or_new Examples.no_charge_data Examples.no_charge_sync
       Examples.no_receipt Examples.no_remote_invoices
       (Examples.retry_fails (exc InvalidRequestError "No such invoice: in_1"))
       Examples.alice Examples.one_unpaid_db
     = (Raise (exc InvalidRequestError "No such invoice: in_1"),
        Examples.one_unpaid_db).
Proof.
  split.
  - apply (retry_unpaid_invoices_outcome Examples.convert Examples.no_plans
             Examples.null_refused Examples.fetch_or_new Examples.no_charge_data
             Examples.no_charge_sync Examples.no_receipt Examples.no_remote_invoices
             (Examples.retry_fails (Examples.already_paid InvalidRequestError))
             Examples.alice Examples.one_unpaid_db).
    + reflexivity.
    + intros invoice db0 e db1 Hraise. inversion Hraise. reflexivity.
  - apply (proj2 (proj2 (proj2 (proj2
             (retry_unpaid_invoices_outcome Examples.convert Examples.no_plans
                Examples.null_refused Examples.fetch_or_new Examples.no_charge_data
                Examples.no_charge_sync Examples.no_receipt
                Examples.no_remote_invoices
                (Examples.retry_fails (exc InvalidRequestError "No such invoice: in_1"))
                Examples.alice Examples.one_unpaid_db))))
             Examples.one_unpaid_db [] Examples.unpaid [] Examples.one_unpaid_db);
      reflexivity.
Defined.

(** ** Event processing and validation *)

Section EventFacts.

Context {R Msg Data : Type}.
Variable msg_eq : Msg -> Msg -> bool.
Variable msg_data : Msg -> option Data.
Variable api_retrieve_message : Event Msg -> M R Msg.
Variable call_handlers : Data -> string -> string -> M (Event Msg * EventStore R Msg) unit.
Variable WEBHOOK_SIGNALS : gset string.
Variable format_exc : Exc -> string.

(** C5: when the handlers of a valid, unprocessed event raise a
    provider error, and the event has its row when they stop,
    [process] returns normally with the event object as the handlers
    left it: [process] neither sets [processed] nor saves the event.
    It has appended to the exception log one row that points to the
    event, with the error body, the message and the traceback, and has
    broadcast one [webhook_processing_error]; the rest of the store is
    as the handlers left it. *)
Theorem process_isolates_provider_error (self self1 : Event Msg)
    (st st1 : EventStore R Msg) (event_type event_subtype : string)
    (data : Data) (e : Exc) :
  ev_valid self = Some true ->
  ev_processed self = false ->
  split_dot (ev_type self) = Some (event_type, event_subtype) ->
  msg_data (ev_webhook_message self) = Some data ->
  call_handlers data event_type event_subtype (self, st) = (Raise e, (self1, st1)) ->
  is_StripeError (exc_class e) = true ->
  is_Some (events st1 !! ev_stripe_id self1) ->
  process msg_data call_handlers WEBHOOK_SIGNALS format_exc self st =
    (Ok self1,
     mkEventStore (events st1)
       (exception_log st1 ++
          [mkEventProcessingException (Some (ev_stripe_id self1))
             (str_or (exc_http_body e) "") (exc_str e) (format_exc e)])
       (sent st1 ++ [WebhookProcessingError (exc_http_body e) e])
       (outside st1)).
Proof.
  intros Hvalid Hproc Hsplit Hdata Hcall Hstripe [row Hrow].
  unfold process. rewrite Hvalid, Hproc, Hsplit. cbn [truthy negb andb].
  unfold process_try, process_except, self_now, on_store,
    message_data, message, log, send.
  unfold_monad. cbn [fst snd]. rewrite Hvalid. cbn [truthy].
  rewrite Hdata. unfold_monad. rewrite Hcall, Hstripe. cbn [fst snd].
  rewrite Hrow. reflexivity.
Qed.

(** The same failure on an event that has no row: the log entry cannot
    be created, and the [ValueError] of the ORM leaves [process]; no
    [webhook_processing_error] is broadcast. *)
Lemma process_unsaved_event_raises (self self1 : Event Msg)
    (st st1 : EventStore R Msg) (event_type event_subtype : string)
    (data : Data) (e : Exc) :
  ev_valid self = Some true ->
  ev_processed self = false ->
  split_dot (ev_type self) = Some (event_type, event_subtype) ->
  msg_data (ev_webhook_message self) = Some data ->
  call_handlers data event_type event_subtype (self, st) = (Raise e, (self1, st1)) ->
  is_StripeError (exc_class e) = true ->
  events st1 !! ev_stripe_id self1 = None ->
  process msg_data call_handlers WEBHOOK_SIGNALS format_exc self st =
    (Raise (exc ValueError
       "save() prohibited to prevent data loss due to unsaved related object 'event'."),
     st1).
Proof.
  intros Hvalid Hproc Hsplit Hdata Hcall Hstripe Hrow.
  unfold process. rewrite Hvalid, Hproc, Hsplit. cbn [truthy negb andb].
  unfold process_try, process_except, self_now, on_store,
    message_data, message, log, send.
  unfold_monad. cbn [fst snd]. rewrite Hvalid. cbn [truthy].
  rewrite Hdata. unfold_monad. rewrite Hcall, Hstripe. cbn [fst snd].
  rewrite Hrow. reflexivity.
Qed.

(** C8, amended: whenever [validate] returns, [valid] is confirmed: it
    is [True] or [False] according to whether the stored message equals
    the one fetched again, whatever the flag was before, and the row is
    saved.  An unconfirmed event thus makes one transition; nothing in
    [validate] looks at the current flag. *)
Theorem validate_confirms (self : Event Msg) (st : EventStore R Msg) :
  validate msg_eq api_retrieve_message self st =
    match api_retrieve_message self (outside st) with
    | (Ok validated_message, o) =>
        let self' := set_valid self
                       (Some (msg_eq (ev_webhook_message self) validated_message)) in
        (Ok self', mkEventStore (<[ev_stripe_id self := self']> (events st))
                     (exception_log st) (sent st) o)
    | (Raise e, o) =>
        (Raise e, mkEventStore (events st) (exception_log st) (sent st) o)
    end.
Proof.
  unfold validate. unfold_monad. unfold event_save. unfold_monad.
  destruct (api_retrieve_message self (outside st)) as [[m|e] o]; reflexivity.
Qed.

(** An exception that is not a provider error leaves [process]: the
    [except StripeError] clause does not catch it, and nothing is
    logged or broadcast. *)
Lemma process_propagates_other_errors (self self1 : Event Msg)
    (st st1 : EventStore R Msg) (event_type event_subtype : string)
    (data : Data) (e : Exc) :
  ev_valid self = Some true ->
  ev_processed self = false ->
  split_dot (ev_type self) = Some (event_type, event_subtype) ->
  msg_data (ev_webhook_message self) = Some data ->
  call_handlers data event_type event_subtype (self, st) = (Raise e, (self1, st1)) ->
  is_StripeError (exc_class e) = false ->
  process msg_data call_handlers WEBHOOK_SIGNALS format_exc self st = (Raise e, st1).
Proof.
  intros Hvalid Hproc Hsplit Hdata Hcall Hother.
  unfold process. rewrite Hvalid, Hproc, Hsplit. cbn [truthy negb andb].
  unfold process_try, self_now, on_store, message_data, message.
  unfold_monad. cbn [fst snd]. rewrite Hvalid. cbn [truthy].
  rewrite Hdata. unfold_monad. by rewrite Hcall, Hother.
Qed.

(** An event that is not confirmed authentic, or is already processed,
    is left alone. *)
Lemma process_guard (self : Event Msg) (st : EventStore R Msg) :
  truthy (ev_valid self) && negb (ev_processed self) = false ->
  process msg_data call_handlers WEBHOOK_SIGNALS format_exc self st = (Ok self, st).
Proof. intros Hguard. unfold process. by rewrite Hguard. Qed.

End EventFacts.

Lemma process_isolates_provider_error_witness :
  process Examples.whole_message Examples.failing_handlers Examples.known_signals
    Examples.traceback_of (Examples.charge_event (Some true)) Examples.stored_event =
    (Ok (Examples.charge_event (Some true)),
     mkEventStore (events Examples.stored_event)
       [mkEventProcessingException (Some "evt_1") "{error}"
          "Your card was declined." "Traceback: Your card was declined."]
       [WebhookProcessingError (Some "{error}") Examples.card_declined]
       tt).
Proof.
  apply (process_isolates_provider_error Examples.whole_message
           Examples.failing_handlers Examples.known_signals Examples.traceback_of
           (Examples.charge_event (Some true)) (Examples.charge_event (Some true))
           Examples.stored_event Examples.stored_event
           "charge" "succeeded" "payload" Examples.card_declined);
    try reflexivity.
  exists (Examples.charge_event (Some true)). reflexivity.
Defined.

(** C8: the claim as written fails on an event already confirmed
    authentic: [validate] runs again and the flag moves a second time,
    to inauthentic. *)
Lemma validate_reruns_counterexample :
  ev_valid (Examples.charge_event (Some true)) = Some true
  /\ (validate String.eqb Examples.tampered (Examples.charge_event (Some true))
        Examples.no_events).1 = Ok (Examples.charge_event (Some false))
  /\ ev_valid (Examples.charge_event (Some false)) = Some false.
Proof. split_and!; reflexivity. Qed.

(** ** What a card deletion cascades to *)

Lemma collect_step_incl (cs : list Card) (ks : gmap Z Customer)
    (dead : gset string * gset Z) :
  dead.1 ⊆ (collect_step cs ks dead).1 /\ dead.2 ⊆ (collect_step cs ks dead).2.
Proof. unfold collect_step. cbn. split; set_solver. Qed.

Lemma collect_iter_incl (cs : list Card) (ks : gmap Z Customer)
    (dead : gset string * gset Z) (n : nat) :
  dead.1 ⊆ (Nat.iter n (collect_step cs ks) dead).1
  /\ dead.2 ⊆ (Nat.iter n (collect_step cs ks) dead).2.
Proof.
  induction n as [|n [IH1 IH2]]; [done|].
  rewrite Nat.iter_succ.
  destruct (collect_step_incl cs ks (Nat.iter n (collect_step cs ks) dead)).
  split; set_solver.
Qed.

(** The card that is deleted is among the rows collected. *)
Lemma collect_self (cs : list Card) (ks : gmap Z Customer) (id : string) :
  id ∈ (collect cs ks id).1.
Proof.
  unfold collect.
  destruct (collect_iter_incl cs ks ({[ id ]}, ∅) (length cs + size ks)) as [H _].
  apply H. cbn. set_solver.
Qed.

Lemma collect_step_within (cs : list Card) (ks : gmap Z Customer) (id : string)
    (dead : gset string * gset Z) :
  within cs ks id dead -> within cs ks id (collect_step cs ks dead).
Proof.
  intros [H1 H2]. unfold within, collect_step. cbn. split.
  - apply union_least; [done|]. intros x Hx.
    apply elem_of_union_r. apply elem_of_list_to_set in Hx.
    apply elem_of_list_to_set. apply list_elem_of_fmap in Hx as (c & -> & Hc).
    apply list_elem_of_filter in Hc as [_ Hc]. apply list_elem_of_fmap. eauto.
  - apply union_least; [done|]. apply dom_filter_subseteq.
Qed.

Lemma collect_iter_within (cs : list Card) (ks : gmap Z Customer) (id : string)
    (n : nat) :
  within cs ks id (Nat.iter n (collect_step cs ks) ({[ id ]}, ∅)).
Proof.
  induction n as [|n IH]; [|by apply collect_step_within].
  unfold within. cbn. split; set_solver.
Qed.

Lemma size_list_to_set_le (l : list string) :
  (size (list_to_set l : gset string) <= length l)%nat.
Proof.
  induction l as [|x l IH]; cbn [list_to_set length].
  - by rewrite size_empty.
  - rewrite size_union_alt, size_singleton.
    assert (size (list_to_set l ∖ {[ x ]} : gset string) <= size (list_to_set l : gset string))%nat
      as Hdiff by (apply subseteq_size, subseteq_difference_l; reflexivity).
    lia.
Qed.

Lemma within_size (cs : list Card) (ks : gmap Z Customer) (id : string)
    (dead : gset string * gset Z) :
  within cs ks id dead -> (size dead.1 + size dead.2 <= 1 + (length cs + size ks))%nat.
Proof.
  intros [H1 H2]. apply subseteq_size in H1, H2.
  rewrite size_dom in H2. rewrite size_union_alt, size_singleton in H1.
  assert (size (list_to_set (card_stripe_id <$> cs) ∖ {[ id ]} : gset string)
          <= size (list_to_set (card_stripe_id <$> cs) : gset string))%nat
    as Hdiff by (apply subseteq_size, subseteq_difference_l; reflexivity).
  pose proof (size_list_to_set_le (card_stripe_id <$> cs)) as Hl.
  rewrite length_fmap in Hl. lia.
Qed.

(** A round that collects nothing new ends the collection; each other
    round collects a row more. *)
Lemma collect_iter_progress (cs : list Card) (ks : gmap Z Customer) (id : string)
    (n : nat) :
  let dead := Nat.iter n (collect_step cs ks) ({[ id ]}, ∅) in
  collect_step cs ks dead = dead \/ (1 + n <= size dead.1 + size dead.2)%nat.
Proof.
  induction n as [|n IH]; cbn zeta.
  - right. cbn. rewrite size_singleton, size_empty. lia.
  - rewrite !Nat.iter_succ. cbn zeta in IH.
    set (dead := Nat.iter n (collect_step cs ks) ({[ id ]}, ∅)) in *.
    destruct IH as [IH|IH]; [left; by rewrite IH|].
    destruct (collect_step_incl cs ks dead) as [H1 H2].
    destruct (decide (size (collect_step cs ks dead).1 <= size dead.1)%nat) as [Hs1|Hs1];
      [|right; apply subseteq_size in H2; lia].
    destruct (decide (size (collect_step cs ks dead).2 <= size dead.2)%nat) as [Hs2|Hs2];
      [|right; apply subseteq_size in H1; lia].
    left. apply (set_subseteq_size_eq _ _ H1) in Hs1.
    apply (set_subseteq_size_eq _ _ H2) in Hs2.
    assert (collect_step cs ks dead = dead) as E
      by (by apply injective_projections).
    by rewrite !E.
Qed.

(** The collection is closed: it holds the cards of every customer it
    holds, and every customer whose default source it holds. *)
Lemma collect_closed (cs : list Card) (ks : gmap Z Customer) (id : string) :
  collect_step cs ks (collect cs ks id) = collect cs ks id.
Proof.
  unfold collect.
  destruct (collect_iter_progress cs ks id (length cs + size ks)) as [H|H]; [done|].
  cbn zeta in H.
  pose proof (collect_iter_within cs ks id (length cs + size ks)) as Hin.
  set (dead := Nat.iter (length cs + size ks) (collect_step cs ks) ({[ id ]}, ∅)) in *.
  pose proof (within_size _ _ _ _ Hin) as Hle.
  pose proof (within_size _ _ _ _ (collect_step_within _ _ _ _ Hin)) as Hle'.
  destruct (collect_step_incl cs ks dead) as [H1 H2].
  pose proof (subseteq_size _ _ H1) as Hs1. pose proof (subseteq_size _ _ H2) as Hs2.
  assert ((collect_step cs ks dead).1 = dead.1) as E1
    by (symmetry; apply set_subseteq_size_eq; [done|lia]).
  assert ((collect_step cs ks dead).2 = dead.2) as E2
    by (symmetry; apply set_subseteq_size_eq; [done|lia]).
  by apply injective_projections.
Qed.

Lemma collect_cards (cs : list Card) (ks : gmap Z Customer) (id : string) (c : Card) :
  c ∈ cs -> card_customer c ∈ (collect cs ks id).2 ->
  card_stripe_id c ∈ (collect cs ks id).1.
Proof.
  intros Hc Hk. rewrite <- collect_closed. unfold collect_step. cbn.
  apply elem_of_union_r, elem_of_list_to_set, list_elem_of_fmap.
  exists c. split; [done|]. by apply list_elem_of_filter.
Qed.

Lemma collect_customers (cs : list Card) (ks : gmap Z Customer) (id : string)
    (pk : Z) (k : Customer) (s : string) :
  ks !! pk = Some k -> cust_default_source k = Some s ->
  s ∈ (collect cs ks id).1 -> pk ∈ (collect cs ks id).2.
Proof.
  intros Hk Hs Hdead. rewrite <- collect_closed. unfold collect_step. cbn.
  apply elem_of_union_r, elem_of_dom. exists k.
  apply map_lookup_filter_Some. split; [done|]. cbn.
  unfold defaults_to. rewrite Hs. by apply bool_decide_eq_true.
Qed.

(** ** Card removal and purge *)

Section LifecycleFacts.

Context {R : Type}.
Variable customer_api_delete : Customer -> M R unit.
Variable card_api_delete : Card -> M R unit.
Variable super_purge : Customer -> Customer.

(** Deleting a card only drops rows, and drops the card's own. *)
Lemma without_card_cards (self c : Card) (st : Store R) :
  c ∈ cards (without_card self st) ->
  c ∈ cards st /\ card_stripe_id c ≠ card_stripe_id self.
Proof.
  unfold without_card. cbn. intros Hc.
  apply list_elem_of_filter in Hc as [Hdead Hc]. split; [done|].
  intros Heq. apply Hdead. rewrite Heq. apply collect_self.
Qed.

Lemma without_card_customers (self : Card) (st : Store R) :
  customers (without_card self st) ⊆ customers st.
Proof. unfold without_card. cbn. apply map_filter_subseteq. Qed.

(** What [Card.remove] makes of each outcome of the remote deletion:
    an [InvalidRequestError] never leaves it, whatever its message; any
    other exception does, before the local row is touched. *)
Lemma card_remove_outcome (self : Card) (st : Store R) :
  card_remove card_api_delete self st =
    let deleted r := without_card self (mkStore (cards st) (customers st) r) in
    match card_api_delete self (remote st) with
    | (Ok _, r) => (Ok tt, deleted r)
    | (Raise e, r) =>
        if is_InvalidRequestError (exc_class e) then (Ok tt, deleted r)
        else (Raise e, mkStore (cards st) (customers st) r)
    end.
Proof.
  unfold card_remove, card_delete, on_remote. unfold_monad.
  destruct (card_api_delete self (remote st)) as [[[]|e] r]; [reflexivity|].
  destruct (is_InvalidRequestError (exc_class e)); [|reflexivity].
  destruct (startswith _ _); reflexivity.
Qed.

(** C9: an [InvalidRequestError] raised by the remote deletion of a
    card is swallowed by [Card.remove] even when its message does not
    start with "No such customer:"; the local row is deleted, with the
    rows that cascade from it, and the caller sees no error. *)
Theorem card_remove_swallows_any_invalid_request (self : Card) (st : Store R)
    (e : Exc) (r : R) :
  card_api_delete self (remote st) = (Raise e, r) ->
  is_InvalidRequestError (exc_class e) = true ->
  startswith (exc_str e) "No such customer:" = false ->
  let dead := collect (cards st) (customers st) (card_stripe_id self) in
  card_remove card_api_delete self st =
    (Ok tt,
     mkStore (filter (fun c => card_stripe_id c ∉ dead.1) (cards st))
       (filter (fun kv : Z * Customer => kv.1 ∉ dead.2) (customers st)) r)
  /\ card_stripe_id self ∈ dead.1.
Proof.
  intros Hdelete Hclass _ dead. split; [|apply collect_self].
  rewrite card_remove_outcome, Hdelete, Hclass. reflexivity.
Qed.

(** Removing cards only ever drops rows, and drops those removed. *)
Lemma remove_all_cards (l : list Card) :
  forall (st st' : Store R),
  for_each l (card_remove card_api_delete) st = (Ok tt, st') ->
  customers st' ⊆ customers st
  /\ forall c, c ∈ cards st' ->
       c ∈ cards st /\ forall x, x ∈ l -> card_stripe_id c ≠ card_stripe_id x.
Proof.
  induction l as [|x l IH]; intros st st' Hrun.
  - cbn in Hrun. unfold_monad in Hrun. inversion Hrun; subst.
    split; [done|]. intros c Hc. split; [done|]. intros y Hy. inversion Hy.
  - cbn [for_each] in Hrun. unfold bind in Hrun.
    rewrite card_remove_outcome in Hrun. cbv zeta in Hrun.
    assert (Hstep : forall r,
      for_each l (card_remove card_api_delete)
        (without_card x (mkStore (cards st) (customers st) r)) = (Ok tt, st') ->
      customers st' ⊆ customers st
      /\ forall c, c ∈ cards st' ->
           c ∈ cards st /\ forall y, y ∈ x :: l -> card_stripe_id c ≠ card_stripe_id y).
    { intros r Hl. apply IH in Hl as [Hcust Hcards]. split.
      - etrans; [exact Hcust|]. apply (without_card_customers x (mkStore _ _ r)).
      - intros c Hc. apply Hcards in Hc as [Hin Hl].
        apply without_card_cards in Hin as [Hin Hne]. split; [done|].
        intros y Hy. inversion Hy; subst; [done|by apply Hl]. }
    destruct (card_api_delete x (remote st)) as [[[]|e] r]; [by apply (Hstep r)|].
    destruct (is_InvalidRequestError (exc_class e)); [by apply (Hstep r)|congruence].
Qed.

(** A purge that returns leaves no payment source of the customer. *)
Lemma purge_ok (self self1 : Customer) (now : datetime) (st st1 : Store R) :
  purge customer_api_delete card_api_delete super_purge self now st = (Ok self1, st1) ->
  self1 = purged_self super_purge self now
  /\ filter (fun c => card_customer c = cust_id self) (cards st1) = [].
Proof.
  intros Hrun. unfold purge, customer_sources, customer_save, on_remote in Hrun.
  unfold_monad in Hrun. cbn [cust_id cust_stripe_id cust_subscriber
    cust_default_source cust_date_purged] in Hrun.
  assert (Hrest : forall r,
    match for_each (filter (fun c => card_customer c = cust_id self) (cards st))
            (card_remove card_api_delete) (mkStore (cards st) (customers st) r) with
    | (Ok _, s') =>
        (Ok (purged_self super_purge self now),
         mkStore (cards s') (<[cust_id (purged_self super_purge self now) := purged_self super_purge self now]>
                               (customers s')) (remote s'))
    | (Raise e, s') => (Raise e, s')
    end = (Ok self1, st1) ->
    self1 = purged_self super_purge self now
    /\ filter (fun c => card_customer c = cust_id self) (cards st1) = []).
  { intros r Hl.
    destruct (for_each _ _ _) as [[[]|e] s'] eqn:Hloop; [|congruence].
    apply remove_all_cards in Hloop as [_ Hcards]. cbn in Hcards.
    inversion Hl; subst. split; [done|]. cbn.
    destruct (filter _ (cards s')) as [|c l] eqn:Hf; [done|].
    assert (Hc : c ∈ filter (fun c => card_customer c = cust_id self) (cards s'))
      by (rewrite Hf; apply list_elem_of_here).
    apply list_elem_of_filter in Hc as [Hown Hc].
    apply Hcards in Hc as [Hin Hne].
    exfalso. apply (Hne c); [|done]. by apply list_elem_of_filter. }
  destruct (customer_api_delete self (remote st)) as [[[]|e] r]; [by apply (Hrest r)|].
  destruct (is_InvalidRequestError (exc_class e)); [|congruence].
  destruct (startswith _ _); [by apply (Hrest r)|congruence].
Qed.

(** C6, amended: after a purge that returned, a second purge returns
    too, provided the remote deletion now succeeds or is refused with
    "No such customer:"; it removes no card and writes the customer row
    again, with [date_purged] set anew to the time of the second call. *)
Theorem purge_twice (self self1 : Customer) (now1 now2 : datetime) (st st1 : Store R) :
  (forall c, cust_id (super_purge c) = cust_id c) ->
  purge customer_api_delete card_api_delete super_purge self now1 st = (Ok self1, st1) ->
  (forall e r, customer_api_delete self1 (remote st1) = (Raise e, r) ->
     is_InvalidRequestError (exc_class e) = true
     /\ startswith (exc_str e) "No such customer:" = true) ->
  exists self2 st2,
    purge customer_api_delete card_api_delete super_purge self1 now2 st1 = (Ok self2, st2)
    /\ cust_date_purged self1 = Some now1
    /\ cust_date_purged self2 = Some now2
    /\ cards st2 = cards st1
    /\ customers st2 = <[cust_id self1 := self2]> (customers st1).
Proof.
  intros Hpk Hfirst Hremote.
  apply purge_ok in Hfirst as [-> Hnone].
  assert (Hid : cust_id (purged_self super_purge self now1) = cust_id self)
    by (unfold purged_self; cbn; by rewrite Hpk).
  assert (Hdate : cust_date_purged (purged_self super_purge self now1) = Some now1)
    by reflexivity.
  set (self1 := purged_self super_purge self now1) in *. clearbody self1.
  rewrite <- Hid in Hnone.
  exists (purged_self super_purge self1 now2).
  assert (Hid2 : cust_id (purged_self super_purge self1 now2) = cust_id self1)
    by (unfold purged_self; cbn; by rewrite Hpk).
  unfold purge, customer_sources, customer_save, on_remote. unfold_monad.
  cbn [cust_id cust_stripe_id cust_subscriber cust_default_source cust_date_purged].
  fold (purged_self super_purge self1 now2).
  destruct (customer_api_delete self1 (remote st1)) as [[[]|e] r] eqn:Hdelete.
  - cbn [cards]. rewrite Hnone, Hpk. cbn.
    eexists. split; [reflexivity|]. done.
  - destruct (Hremote e r eq_refl) as [-> ->].
    cbn [cards]. rewrite Hnone, Hpk. cbn.
    eexists. split; [reflexivity|]. done.
Qed.

End LifecycleFacts.

Lemma card_remove_swallows_any_invalid_request_witness :
  card_remove Examples.card_delete_refused Examples.visa Examples.alice_store =
    (Ok tt, mkStore [] ∅ {[ "cus_1" ]})
  /\ "card_1" ∈ (collect [Examples.visa] {[ 1 := Examples.alice ]} "card_1").1.
Proof.
  destruct (card_remove_swallows_any_invalid_request Examples.card_delete_refused
              Examples.visa Examples.alice_store Examples.card_refused {[ "cus_1" ]}
              eq_refl eq_refl eq_refl) as [Hrun Hdead].
  split; [|exact Hdead].
  rewrite Hrun. vm_compute. reflexivity.
Defined.

(** C6: the claim as written fails on the date: the second purge
    overwrites [date_purged] with its own time. *)
Lemma purge_twice_date_counterexample :
  (purge Examples.delete_known Examples.card_delete_accepted
     Examples.keep_columns Examples.alice 1000 Examples.alice_store).1
  = Ok Examples.alice_purged
  /\ cust_date_purged Examples.alice_purged = Some 1000
  /\ (purge Examples.delete_known Examples.card_delete_accepted
        Examples.keep_columns Examples.alice_purged 2000
        Examples.after_first_purge).1
     = Ok (mkCustomer 1 "cus_1" None None (Some 2000)).
Proof. split_and!; vm_compute; reflexivity. Qed.

Lemma purge_twice_witness :
  exists self2 st2,
    purge Examples.delete_known Examples.card_delete_accepted
      Examples.keep_columns Examples.alice_purged 2000 Examples.after_first_purge
    = (Ok self2, st2)
    /\ cust_date_purged Examples.alice_purged = Some 1000
    /\ cust_date_purged self2 = Some 2000
    /\ cards st2 = cards Examples.after_first_purge
    /\ customers st2 =
         <[cust_id Examples.alice_purged := self2]>
           (customers Examples.after_first_purge).
Proof.
  apply (purge_twice Examples.delete_known Examples.card_delete_accepted
           Examples.keep_columns Examples.alice Examples.alice_purged 1000 2000
           Examples.alice_store Examples.after_first_purge).
  - reflexivity.
  - vm_compute. reflexivity.
  - intros e r Hraise. vm_compute in Hraise. inversion Hraise. split; reflexivity.
Defined.

(** ** Transfer reconciliation *)

Section TransferFacts.

Context {R : Type}.
Variable api_retrieve_status : Transfer -> M R string.

(** The fee loop appends one row per fee detail, in payload order, as
    long as the amounts fit their column. *)
Lemma create_fees (transfer : Transfer) (fees : list FeeDetail) :
  forall st : TransferStore R,
  forallb (fun fee => fits_decimal_7_2 (fd_amount fee)) fees = true ->
  for_each fees (create_fee transfer) st =
    (Ok tt, mkTransferStore (transfers st)
              (charge_fee_details st ++ map (fee_row transfer) fees)
              (status_calls st) (provider st)).
Proof.
  induction fees as [|fee fees IH]; intros st Hfit.
  - cbn. unfold_monad. rewrite app_nil_r. by destruct st.
  - cbn [forallb] in Hfit. apply andb_prop in Hfit as [Hfee Hfit].
    cbn [for_each]. unfold bind, create_fee at 1. rewrite Hfee.
    rewrite IH by done. cbn. by rewrite <- app_assoc.
Qed.

(** The first amount that does not fit stops the loop: the rows before
    it are written, the others are not. *)
Lemma create_fees_overflow (transfer : Transfer) (before after : list FeeDetail)
    (fee : FeeDetail) (st : TransferStore R) :
  forallb (fun fee => fits_decimal_7_2 (fd_amount fee)) before = true ->
  fits_decimal_7_2 (fd_amount fee) = false ->
  for_each (before ++ fee :: after) (create_fee transfer) st =
    (Raise decimal_overflow,
     mkTransferStore (transfers st)
       (charge_fee_details st ++ map (fee_row transfer) before)
       (status_calls st) (provider st)).
Proof.
  intros Hfit Hfee. rewrite for_each_app, create_fees by done.
  cbn [for_each]. unfold bind, create_fee. by rewrite Hfee.
Qed.

(** What [update_status] does on a row: the remote read is recorded,
    and its answer saved as the row's status. *)
Lemma update_status_outcome (self : Transfer) (st : TransferStore R) :
  update_status api_retrieve_status self st =
    match api_retrieve_status self (provider st) with
    | (Ok status, p) =>
        (Ok (set_status self status),
         mkTransferStore (<[tr_stripe_id self := set_status self status]> (transfers st))
           (charge_fee_details st)
           (status_calls st ++ [UpdateStatus (tr_stripe_id self)]) p)
    | (Raise e, p) =>
        (Raise e,
         mkTransferStore (transfers st) (charge_fee_details st)
           (status_calls st ++ [UpdateStatus (tr_stripe_id self)]) p)
    end.
Proof.
  unfold update_status, transfer_save. unfold_monad.
  destruct (api_retrieve_status self (provider st)) as [[status|e] p]; reflexivity.
Qed.

(** [event and event.type == "transfer.updated"], spelled out. *)
Lemma is_transfer_updated_iff (event : option EventRef) :
  is_transfer_updated event = true <->
  exists e, event = Some e /\ er_type e = "transfer.updated".
Proof.
  unfold is_transfer_updated. destruct event as [e|].
  - rewrite bool_decide_eq_true. split; [eauto|]. by intros (e' & [= <-] & He).
  - split; [done|]. by intros (e' & [=] & _).
Qed.

(** The last step of [process_transfer], by cases. *)
Ltac refresh_cases :=
  destruct (is_transfer_updated _);
  [rewrite update_status_outcome; cbn [provider];
   destruct (api_retrieve_status _ _) as [[status|e] p];
   unfold transfer_save; unfold_monad; cbn
  |cbn].

(** Whatever a sync does, the transfer has a row afterwards, and a
    sync of a transfer that has a row touches no fee row. *)
Lemma process_transfer_mirrored (event : option EventRef)
    (stripe_object : TransferData) (st : TransferStore R) (transfer : Transfer) :
  transfers st !! td_id stripe_object = Some transfer ->
  charge_fee_details (process_transfer api_retrieve_status event stripe_object st).2
  = charge_fee_details st.
Proof.
  intros Hlookup. unfold process_transfer. unfold_monad. rewrite Hlookup.
  unfold transfer_save at 1. unfold_monad.
  refresh_cases; reflexivity.
Qed.


End TransferFacts.



(** * Further properties *)

(** ** Subscription validity and the subscription queries *)

Lemma is_valid_iff (s : Subscription) (now : datetime) :
  is_valid s now = true <->
  (sub_status s = "trialing" \/ sub_status s = "active")
  /\ now < sub_current_period_end s.
Proof.
  unfold is_valid, is_status_current, is_period_current. split.
  - intros Hvalid.
    destruct (bool_decide (sub_status s ∈ _)) eqn:Hstatus; [|discriminate].
    destruct (bool_decide (_ > now)) eqn:Hperiod; [|discriminate].
    apply bool_decide_eq_true in Hstatus, Hperiod. split; [|lia].
    apply elem_of_cons in Hstatus as [?|Hstatus]; [by left|].
    apply list_elem_of_singleton in Hstatus. by right.
  - intros [Hstatus Hperiod].
    rewrite (bool_decide_eq_true_2 (sub_status s ∈ _)).
    + by rewrite bool_decide_eq_true_2 by lia.
    + destruct Hstatus as [-> | ->]; [apply list_elem_of_here|].
      apply list_elem_of_further, list_elem_of_here.
Qed.

(** X1: a subscription that is not valid at some time is not valid at
    any later time: validity is only ever lost as time passes. *)
Theorem is_valid_expires (s : Subscription) (now later : datetime) :
  is_valid s now = false ->
  now <= later ->
  is_valid s later = false.
Proof.
  intros Hnow Hle. apply not_true_is_false. intros Hlater.
  apply is_valid_iff in Hlater as [Hstatus Hperiod].
  assert (is_valid s now = true) by (apply is_valid_iff; split; [done|lia]).
  congruence.
Qed.

Lemma is_valid_expires_witness :
  is_valid MoreExamples.expired 1300 = false
  /\ is_valid MoreExamples.expired 1400 = false.
Proof.
  split; [reflexivity|].
  apply (is_valid_expires MoreExamples.expired 1300 1400); [reflexivity|lia].
Defined.

Section SubscriptionQueryFacts.

Context {R StripeSubscriptionData : Type}.
Variable stripe_cancel : Subscription -> bool -> M R StripeSubscriptionData.
Variable sync_from_stripe_data :
  StripeSubscriptionData -> M (list Subscription * R) Subscription.
Variable int : string -> result Z.

(** X2: asked about a plan, [has_active_subscription] converts the
    plan id to the integer key it is compared with.  When the
    conversion fails, its error leaves the call (only
    [Subscription.DoesNotExist] is caught); otherwise the call neither
    raises nor writes, and answers [True] exactly when the customer has
    a subscription on the plan with that key that is valid now.  A
    [Plan] instance stands for its [stripe_id]. *)
Theorem has_active_subscription_for_plan (self : Customer) (id : string)
    (now : datetime) (w : World R) :
  match int id with
  | Ok n =>
      exists b,
        has_active_subscription int self (PlanId id) now w = (Ok b, w)
        /\ (b = true <->
            exists s, s ∈ subscriptions w /\ sub_customer s = cust_id self
                      /\ sub_plan s = n /\ is_valid s now = true)
  | Raise e =>
      has_active_subscription int self (PlanId id) now w =
        (if bool_decide (exc_class e = DoesNotExist) then Ok false else Raise e, w)
  end
  /\ forall p, plan_stripe_id p = id ->
       has_active_subscription int self (PlanObject p) now w
       = has_active_subscription int self (PlanId id) now w.
Proof.
  split; [|by intros p <-].
  unfold has_active_subscription, customer_subscriptions_for, lift_result.
  unfold_monad.
  destruct (int id) as [n|e]; [|by destruct (bool_decide (exc_class e = DoesNotExist))].
  rewrite customer_subscriptions_eq.
  eexists. split; [reflexivity|].
  rewrite existsb_exists. split.
  - intros (s & Hin & Hvalid). exists s.
    apply list_elem_of_In, list_elem_of_filter in Hin as [Hplan Hin].
    apply list_elem_of_filter in Hin as [Hown Hin]. done.
  - intros (s & Hin & Hown & Hplan & Hvalid). exists s. split; [|done].
    apply list_elem_of_In, list_elem_of_filter. split; [done|].
    by apply list_elem_of_filter.
Qed.

(** X3: asked with [plan=None], [has_active_subscription] answers the
    validity of the customer's only subscription, and raises
    [TypeError] for any other number of subscriptions, two or more as
    the docstring says. *)
Theorem has_active_subscription_without_plan (self : Customer) (now : datetime)
    (w : World R) :
  has_active_subscription int self PlanNone now w =
    match rows_of self w with
    | [s] => (Ok (is_valid s now), w)
    | _ =>
        (Raise (exc TypeError
           "plan cannot be None if more than one subscription exists for this customer."), w)
    end.
Proof.
  unfold has_active_subscription, _plan_none_check. unfold_monad.
  rewrite customer_subscriptions_eq.
  destruct (rows_of self w) as [|s [|s' l]] eqn:Hrows; [reflexivity| |reflexivity].
  cbn -[rows_of].
  rewrite bool_decide_eq_false_2 by (intros Hne; by apply Hne).
  rewrite Hrows. reflexivity.
Qed.


(** X5: outside a trial (no [trial_end], or one that is not after now,
    the very moment included) the caller's [at_period_end] is what the
    provider is called with. *)
Theorem cancel_outside_trial_keeps_flag (self : Customer) (plan : PlanArg)
    (at_period_end : bool) (now : datetime) (w : World R) (s : Subscription) :
  (cancel_target int self plan w).1 = Ok (Some s) ->
  match sub_trial_end s with Some t => t <= now | None => True end ->
  calls (cancel_subscription stripe_cancel sync_from_stripe_data int
           self plan at_period_end now w).2 =
    (calls w ++ [SubscriptionCancel s at_period_end])%list.
Proof.
  intros Htarget Htrial.
  pose proof (cancel_target_reads int self plan w) as Hreads.
  assert (Hout : in_trial s now = false).
  { unfold in_trial. destruct (sub_trial_end s) as [t|]; [|done].
    apply bool_decide_eq_false. lia. }
  unfold cancel_subscription. unfold_monad.
  destruct (cancel_target int self plan w) as [r w0].
  simpl in Htarget, Hreads. subst r w0.
  pose proof (cancel_resolved_calls stripe_cancel (Some s) at_period_end now w)
    as Hcalls.
  cbv beta iota in Hcalls. rewrite Hout in Hcalls.
  destruct (cancel_resolved stripe_cancel (Some s) at_period_end now w)
    as [[data|e] w1]; simpl in Hcalls |- *; [|done].
  by rewrite sync_subscription_calls.
Qed.

(** X6: an [InvalidRequestError] from the provider's cancellation
    reaches the caller as a [SubscriptionCancellationFailure] whose
    message ends with the provider's; an error of any other class
    reaches the caller as it is.  Either way the local rows are not
    synced. *)
Theorem cancel_remote_failure (self : Customer) (plan : PlanArg)
    (at_period_end : bool) (now : datetime) (w : World R) (s : Subscription)
    (e : Exc) (r : R) :
  (cancel_target int self plan w).1 = Ok (Some s) ->
  stripe_cancel s (if in_trial s now then false else at_period_end) (rest w)
    = (Raise e, r) ->
  cancel_subscription stripe_cancel sync_from_stripe_data int
    self plan at_period_end now w =
    (Raise (if is_InvalidRequestError (exc_class e)
            then exc SubscriptionCancellationFailure
                   ("Customer's information is not current with Stripe."
                    ++ newline ++ exc_str e)
            else e),
     mkWorld (subscriptions w)
       (calls w ++ [SubscriptionCancel s
                      (if in_trial s now then false else at_period_end)]) r).
Proof.
  intros Htarget Hcancel.
  pose proof (cancel_target_reads int self plan w) as Hreads.
  unfold cancel_subscription. unfold_monad.
  destruct (cancel_target int self plan w) as [r0 w0]; simpl in *; subst r0 w0.
  unfold cancel_resolved, subscription_cancel. unfold_monad.
  rewrite Hcancel.
  destruct (is_InvalidRequestError (exc_class e)); reflexivity.
Qed.

End SubscriptionQueryFacts.


Lemma cancel_outside_trial_keeps_flag_witness :
  calls (cancel_subscription Examples.accept_cancel Examples.replace_row
           Examples.int_of_digits Examples.alice PlanNone true 1500
           MoreExamples.trial_ends_now_world).2
  = [SubscriptionCancel MoreExamples.trial_ends_now true].
Proof.
  apply (cancel_outside_trial_keeps_flag Examples.accept_cancel Examples.replace_row
           Examples.int_of_digits Examples.alice PlanNone true 1500
           MoreExamples.trial_ends_now_world MoreExamples.trial_ends_now).
  - reflexivity.
  - cbn. lia.
Defined.

Lemma cancel_remote_failure_witness :
  cancel_subscription MoreExamples.refuse_cancel Examples.replace_row
    Examples.int_of_digits Examples.alice PlanNone true 1500 Examples.one_trial_world
  = (Raise (exc SubscriptionCancellationFailure
       ("Customer's information is not current with Stripe."
        ++ newline ++ "No such subscription: sub_1")),
     mkWorld [Examples.gold_trial] [SubscriptionCancel Examples.gold_trial false] tt).
Proof.
  apply (cancel_remote_failure MoreExamples.refuse_cancel Examples.replace_row
           Examples.int_of_digits Examples.alice PlanNone true 1500
           Examples.one_trial_world Examples.gold_trial MoreExamples.stale tt).
  - reflexivity.
  - reflexivity.
Defined.

(** ** Purge, delete, sync and cards *)

(** The collection from a card that is no customer's default source is
    the card alone. *)
Lemma collect_alone (cs : list Card) (ks : gmap Z Customer) (id : string) :
  (forall pk k, ks !! pk = Some k -> cust_default_source k ≠ Some id) ->
  collect cs ks id = ({[ id ]}, ∅).
Proof.
  intros Hnone. unfold collect.
  assert (Hfix : collect_step cs ks ({[ id ]}, ∅) = ({[ id ]}, ∅)).
  { unfold collect_step. cbn. f_equal.
    - apply set_eq. intros x. rewrite elem_of_union, elem_of_list_to_set,
        list_elem_of_fmap. split; [|by left].
      intros [Hx|(c & _ & Hc)]; [done|].
      apply list_elem_of_filter in Hc as [Hdead _]. set_solver.
    - assert (filter (fun kv : Z * Customer => defaults_to {[ id ]} kv.2 = true) ks = ∅)
        as ->; [|set_solver].
      apply map_empty_filter. intros pk k Hk. cbn. unfold defaults_to.
      specialize (Hnone pk k Hk).
      destruct (cust_default_source k) as [s|]; [|done].
      rewrite bool_decide_eq_false_2; [done|]. set_solver. }
  induction (length cs + size ks)%nat as [|n IH]; [done|].
  by rewrite Nat.iter_succ, IH.
Qed.

Section MoreLifecycleFacts.

Context {R RemoteCustomer StripeCardData : Type}.
Variable customer_api_delete : Customer -> M R unit.
Variable card_api_delete : Card -> M R unit.
Variable super_purge : Customer -> Customer.
Variable customer_api_retrieve : Customer -> M R RemoteCustomer.
Variable deleted : RemoteCustomer -> bool.
Variable super_add_card : Customer -> string -> bool -> M R StripeCardData.
Variable card_sync_from_stripe_data : StripeCardData -> M (Store R) Card.

Lemma purge_eq (self : Customer) (now : datetime) (st : Store R) :
  purge customer_api_delete card_api_delete super_purge self now st =
    match customer_api_delete self (remote st) with
    | (Ok _, r) => purge_locally card_api_delete super_purge self now (mkStore (cards st) (customers st) r)
    | (Raise e, r) =>
        if is_InvalidRequestError (exc_class e)
           && startswith (exc_str e) "No such customer:"
        then purge_locally card_api_delete super_purge self now (mkStore (cards st) (customers st) r)
        else (Raise e, mkStore (cards st) (customers st) r)
    end.
Proof.
  unfold purge, purge_locally, customer_sources, customer_save, on_remote.
  unfold_monad.
  destruct (customer_api_delete self (remote st)) as [[[]|e] r]; [reflexivity|].
  destruct (is_InvalidRequestError (exc_class e)); [|reflexivity].
  destruct (startswith _ _); reflexivity.
Qed.

(** X7: when the remote deletion fails for any reason other than an
    [InvalidRequestError] starting "No such customer:", [purge] raises
    that error and nothing local is changed: no card is removed, the
    customer row is not written, [date_purged] is not set. *)
Theorem purge_remote_failure_is_clean (self : Customer) (now : datetime)
    (st : Store R) (e : Exc) (r : R) :
  customer_api_delete self (remote st) = (Raise e, r) ->
  is_InvalidRequestError (exc_class e)
    && startswith (exc_str e) "No such customer:" = false ->
  purge customer_api_delete card_api_delete super_purge self now st =
    (Raise e, mkStore (cards st) (customers st) r).
Proof. intros Hdelete Hother. by rewrite purge_eq, Hdelete, Hother. Qed.

(** The customer row a purge that returned has saved. *)
Lemma purge_saved (self self1 : Customer) (now : datetime) (st st1 : Store R) :
  purge customer_api_delete card_api_delete super_purge self now st = (Ok self1, st1) ->
  customers st1 !! cust_id self1 = Some self1.
Proof.
  intros Hrun. rewrite purge_eq in Hrun.
  assert (Hsaved : forall s,
    purge_locally card_api_delete super_purge self now s = (Ok self1, st1) ->
    customers st1 !! cust_id self1 = Some self1).
  { intros s Hlocal. unfold purge_locally in Hlocal.
    destruct (for_each _ _ s) as [[[]|e] s']; [|congruence].
    inversion Hlocal; subst. cbn. apply lookup_insert_eq. }
  destruct (customer_api_delete self (remote st)) as [[[]|e] r]; [by eapply Hsaved|].
  destruct (_ && _); [by eapply Hsaved|congruence].
Qed.

(** X8: when [purge] returns, the row saved under the customer's key
    is the returned customer, its [date_purged] is the time of the
    call, none of the customer's cards is left, and it can no longer be
    charged. *)
Theorem purge_leaves_uncharged (self self1 : Customer) (now : datetime)
    (st st1 : Store R) :
  purge customer_api_delete card_api_delete super_purge self now st = (Ok self1, st1) ->
  customers st1 !! cust_id self1 = Some self1
  /\ cust_date_purged self1 = Some now
  /\ filter (fun c => card_customer c = cust_id self) (cards st1) = []
  /\ can_charge self1 = false.
Proof.
  intros Hrun.
  pose proof (purge_ok _ _ _ _ _ _ _ _ Hrun) as [Hself Hcards].
  pose proof (purge_saved _ _ _ _ _ Hrun) as Hrow.
  split_and!; [done|by subst|done|].
  subst self1. unfold can_charge, purged_self. cbn. apply andb_false_r.
Qed.

(** X9: [delete] keeps the customer's own row, which it saves with
    [date_purged] set; of the other rows of the customer table it
    writes none, though the deletion of a card may take some away. *)
Theorem delete_keeps_own_row (self : Customer) (now : datetime) (st st1 : Store R) :
  delete customer_api_delete card_api_delete super_purge self now st = (Ok tt, st1) ->
  let self1 := purged_self super_purge self now in
  customers st1 !! cust_id self1 = Some self1
  /\ cust_date_purged self1 = Some now
  /\ forall k row, k ≠ cust_id self1 ->
       customers st1 !! k = Some row -> customers st !! k = Some row.
Proof.
  intros Hrun self1. unfold delete in Hrun. unfold_monad in Hrun.
  rewrite purge_eq in Hrun.
  assert (Hlocal : forall r,
    (let (res, s') := purge_locally card_api_delete super_purge self now
                        (mkStore (cards st) (customers st) r) in
     match res with
     | Ok _ => (Ok tt, s')
     | Raise e => (Raise e, s')
     end) = (Ok tt, st1) ->
    customers st1 !! cust_id self1 = Some self1
    /\ cust_date_purged self1 = Some now
    /\ forall k row, k ≠ cust_id self1 ->
         customers st1 !! k = Some row -> customers st !! k = Some row).
  { intros r Hl. unfold purge_locally in Hl.
    destruct (for_each _ _ _) as [[[]|e] s'] eqn:Hloop; [|congruence].
    apply remove_all_cards in Hloop as [Hsub _]. cbn in Hsub.
    inversion Hl; subst st1. cbn. fold self1.
    split_and!; [apply lookup_insert_eq|done|].
    intros k row Hk Hrow. rewrite lookup_insert_ne in Hrow by done.
    by apply (lookup_weaken _ _ _ _ Hrow). }
  destruct (customer_api_delete self (remote st)) as [[[]|e] r]; [by apply (Hlocal r)|].
  destruct (_ && _); [by apply (Hlocal r)|congruence].
Qed.

(** X10: when [Card.remove] returns, both tables have only lost rows;
    the rows with that card's [stripe_id] are gone, and so is every
    customer whose default source the card was, with its cards.  When
    the card is no customer's default source, the card table has lost
    exactly the rows with that [stripe_id] and the customer table is
    as it was. *)
Theorem card_remove_removes_that_card (self : Card) (st st' : Store R) :
  card_remove card_api_delete self st = (Ok tt, st') ->
  customers st' ⊆ customers st
  /\ (forall c, c ∈ cards st' ->
        c ∈ cards st /\ card_stripe_id c ≠ card_stripe_id self)
  /\ (forall pk k, customers st !! pk = Some k ->
        cust_default_source k = Some (card_stripe_id self) ->
        customers st' !! pk = None
        /\ forall c, c ∈ cards st' -> card_customer c ≠ pk)
  /\ ((forall pk k, customers st !! pk = Some k ->
         cust_default_source k ≠ Some (card_stripe_id self)) ->
      customers st' = customers st
      /\ cards st' =
           filter (fun c => card_stripe_id c ≠ card_stripe_id self) (cards st)).
Proof.
  rewrite card_remove_outcome. cbv zeta. intros Hrun.
  assert (exists r, st' = without_card self (mkStore (cards st) (customers st) r))
    as [r ->].
  { destruct (card_api_delete self (remote st)) as [[[]|e] r].
    - exists r. by inversion Hrun.
    - destruct (is_InvalidRequestError (exc_class e)); [|discriminate].
      exists r. by inversion Hrun. }
  split_and!.
  - apply (without_card_customers self (mkStore _ _ r)).
  - intros c Hc. by apply without_card_cards in Hc.
  - intros pk k Hk Hdefault. unfold without_card. cbn.
    assert (Hdead : pk ∈ (collect (cards st) (customers st) (card_stripe_id self)).2)
      by (eapply collect_customers; [done..|apply collect_self]).
    split.
    + apply map_lookup_filter_None. right. intros k' _ Hkeep. by apply Hkeep.
    + intros c Hc Hown. apply list_elem_of_filter in Hc as [Hkeep Hc].
      apply Hkeep. apply collect_cards; [done|]. by rewrite Hown.
  - intros Hnone. unfold without_card. cbn [cards customers remote].
    rewrite (collect_alone _ _ _ Hnone). cbn [fst snd].
    split.
    + apply map_filter_id. intros pk k _. cbn. apply not_elem_of_empty.
    + apply list_filter_iff. intros c. apply not_elem_of_singleton.
Qed.

(** X11: an error of the remote deletion that is not an
    [InvalidRequestError] leaves [Card.remove] as it is, and the local
    row is kept. *)
Theorem card_remove_propagates_other_classes (self : Card) (st : Store R)
    (e : Exc) (r : R) :
  card_api_delete self (remote st) = (Raise e, r) ->
  is_InvalidRequestError (exc_class e) = false ->
  card_remove card_api_delete self st =
    (Raise e, mkStore (cards st) (customers st) r).
Proof.
  intros Hdelete Hclass. by rewrite card_remove_outcome, Hdelete, Hclass.
Qed.

(** X12: [_sync] purges exactly the customers the provider reports
    deleted: for one it still has, the local tables are left alone;
    for a deleted one, when [_sync] returns, the row saved under the
    customer's key is the customer as the purge leaves it, with
    [date_purged] the time of the call, and the customer has no card
    left. *)
Theorem sync_purges_deleted_only (self : Customer) (now : datetime)
    (st st1 : Store R) (stripe_customer : RemoteCustomer) (r : R) :
  customer_api_retrieve self (remote st) = (Ok stripe_customer, r) ->
  _sync customer_api_delete card_api_delete super_purge customer_api_retrieve
    deleted self now st = (Ok tt, st1) ->
  if deleted stripe_customer then
    let self1 := purged_self super_purge self now in
    customers st1 !! cust_id self1 = Some self1
    /\ cust_date_purged self1 = Some now
    /\ filter (fun c => card_customer c = cust_id self) (cards st1) = []
  else st1 = mkStore (cards st) (customers st) r.
Proof.
  intros Hretrieve Hrun. unfold _sync, on_remote in Hrun. unfold_monad in Hrun.
  rewrite Hretrieve in Hrun.
  destruct (deleted stripe_customer); [|congruence].
  destruct (purge _ _ _ self now _) as [[self1|e] s1] eqn:Hpurge; [|congruence].
  inversion Hrun; subst s1.
  pose proof (purge_saved _ _ _ _ _ Hpurge) as Hrow.
  pose proof (purge_ok _ _ _ _ _ _ _ _ Hpurge) as [-> Hcards].
  done.
Qed.

(** X13: [add_card] with [set_default] makes the new card the
    customer's default source and saves the row, so the customer has a
    valid card and can be charged unless purged; without
    [set_default] the customer is returned as it was. *)
Theorem add_card_default (self self' : Customer) (source : string)
    (set_default : bool) (st st' : Store R) (new_card : Card) :
  add_card super_add_card card_sync_from_stripe_data self source set_default st
    = (Ok (new_card, self'), st') ->
  if set_default then
    cust_default_source self' = Some (card_stripe_id new_card)
    /\ customers st' !! cust_id self = Some self'
    /\ has_valid_card self' = true
    /\ can_charge self' = bool_decide (cust_date_purged self = None)
  else self' = self.
Proof.
  intros Hrun. unfold add_card, on_remote, customer_save in Hrun.
  unfold_monad in Hrun.
  destruct (super_add_card self source set_default (remote st)) as [[data|e] r];
    [|congruence].
  destruct (card_sync_from_stripe_data data _) as [[card|e] s1]; [|congruence].
  destruct set_default; inversion Hrun; subst; [|done].
  cbn. split_and!; [done|apply lookup_insert_eq|done|done].
Qed.

End MoreLifecycleFacts.

Lemma purge_remote_failure_is_clean_witness :
  purge MoreExamples.delete_unreachable Examples.card_delete_accepted
    Examples.keep_columns Examples.alice 1000 Examples.alice_store
  = (Raise MoreExamples.unreachable,
     mkStore [Examples.visa] {[ 1 := Examples.alice ]} {[ "cus_1" ]}).
Proof.
  apply (purge_remote_failure_is_clean MoreExamples.delete_unreachable
           Examples.card_delete_accepted Examples.keep_columns Examples.alice 1000
           Examples.alice_store MoreExamples.unreachable {[ "cus_1" ]});
    reflexivity.
Defined.

Lemma purge_leaves_uncharged_witness :
  customers Examples.after_first_purge !! cust_id Examples.alice_purged
    = Some Examples.alice_purged
  /\ cust_date_purged Examples.alice_purged = Some 1000
  /\ filter (fun c => card_customer c = cust_id Examples.alice)
       (cards Examples.after_first_purge) = []
  /\ can_charge Examples.alice_purged = false.
Proof.
  apply (purge_leaves_uncharged Examples.delete_known Examples.card_delete_accepted
           Examples.keep_columns Examples.alice Examples.alice_purged 1000
           Examples.alice_store Examples.after_first_purge).
  vm_compute. reflexivity.
Defined.

Lemma delete_keeps_own_row_witness :
  customers Examples.after_first_purge !! 1 = Some Examples.alice_purged
  /\ cust_date_purged Examples.alice_purged = Some 1000.
Proof.
  destruct (delete_keeps_own_row Examples.delete_known Examples.card_delete_accepted
              Examples.keep_columns Examples.alice 1000 Examples.alice_store
              Examples.after_first_purge) as (Hrow & Hdate & _).
  - vm_compute. reflexivity.
  - split; [exact Hrow|exact Hdate].
Defined.

(** [Card.remove] on the card that is the default source of its
    customer takes the customer's row with it. *)
Lemma card_remove_removes_that_card_witness :
  customers (card_remove Examples.card_delete_accepted Examples.visa
               Examples.alice_store).2 !! 1 = None
  /\ forall c,
       c ∈ cards (card_remove Examples.card_delete_accepted Examples.visa
                    Examples.alice_store).2 ->
       card_customer c ≠ 1.
Proof.
  destruct (card_remove_removes_that_card Examples.card_delete_accepted Examples.visa
              Examples.alice_store
              (card_remove Examples.card_delete_accepted Examples.visa
                 Examples.alice_store).2) as (_ & _ & Hcascade & _).
  - vm_compute. reflexivity.
  - apply (Hcascade 1 Examples.alice); reflexivity.
Defined.

Lemma card_remove_propagates_other_classes_witness :
  card_remove MoreExamples.card_delete_unreachable Examples.visa Examples.alice_store
  = (Raise MoreExamples.unreachable,
     mkStore [Examples.visa] {[ 1 := Examples.alice ]} {[ "cus_1" ]}).
Proof.
  apply (card_remove_propagates_other_classes MoreExamples.card_delete_unreachable
           Examples.visa Examples.alice_store MoreExamples.unreachable {[ "cus_1" ]});
    reflexivity.
Defined.

Lemma sync_purges_deleted_only_witness :
  customers
    (_sync Examples.delete_known Examples.card_delete_accepted Examples.keep_columns
       MoreExamples.retrieve_known id Examples.alice 1000
       MoreExamples.forgotten_store).2 !! 1 = Some Examples.alice_purged
  /\ filter (fun c => card_customer c = 1)
       (cards
          (_sync Examples.delete_known Examples.card_delete_accepted
             Examples.keep_columns MoreExamples.retrieve_known id Examples.alice 1000
             MoreExamples.forgotten_store).2) = [].
Proof.
  pose proof (sync_purges_deleted_only Examples.delete_known
                Examples.card_delete_accepted Examples.keep_columns
                MoreExamples.retrieve_known id Examples.alice 1000
                MoreExamples.forgotten_store
                (_sync Examples.delete_known Examples.card_delete_accepted
                   Examples.keep_columns MoreExamples.retrieve_known id
                   Examples.alice 1000 MoreExamples.forgotten_store).2
                true ∅ eq_refl) as Hsync.
  cbv beta iota zeta in Hsync.
  destruct Hsync as (Hrow & _ & Hcards); [vm_compute; reflexivity|].
  split; [exact Hrow|exact Hcards].
Defined.

Lemma add_card_default_witness :
  cust_default_source (mkCustomer 2 "cus_2" (Some 8) (Some "card_tok") None)
    = Some (card_stripe_id (mkCard "card_tok" 1))
  /\ customers
       (add_card MoreExamples.attach_card MoreExamples.add_row MoreExamples.bob
          "tok" true MoreExamples.bob_store).2 !! cust_id MoreExamples.bob
     = Some (mkCustomer 2 "cus_2" (Some 8) (Some "card_tok") None)
  /\ has_valid_card (mkCustomer 2 "cus_2" (Some 8) (Some "card_tok") None) = true
  /\ can_charge (mkCustomer 2 "cus_2" (Some 8) (Some "card_tok") None)
     = bool_decide (cust_date_purged MoreExamples.bob = None).
Proof.
  apply (add_card_default MoreExamples.attach_card MoreExamples.add_row
           MoreExamples.bob _ "tok" true MoreExamples.bob_store _
           (mkCard "card_tok" 1)).
  vm_compute. reflexivity.
Defined.

(** ** Invoicing on subscription *)

Section BillingFacts.

Context {R RemoteInvoice StripeSubscriptionData : Type}.
Variable invoice_api_create : Customer -> M R RemoteInvoice.
Variable invoice_pay : RemoteInvoice -> M R unit.
Variable super_subscribe : Customer -> PlanArg -> M R StripeSubscriptionData.
Variable sync_from_stripe_data :
  StripeSubscriptionData -> M (list Subscription * R) Subscription.

(** What [send_invoice] makes of the outcomes of the two remote calls. *)
Lemma send_invoice_outcome (self : Customer) (w : World R) :
  send_invoice invoice_api_create invoice_pay self w =
    let answer (e : Exc) (r : R) : result bool * World R :=
      (if is_InvalidRequestError (exc_class e) then Ok false else Raise e,
       mkWorld (subscriptions w) (calls w) r) in
    match invoice_api_create self (rest w) with
    | (Ok invoice, r) =>
        match invoice_pay invoice r with
        | (Ok _, r') => (Ok true, mkWorld (subscriptions w) (calls w) r')
        | (Raise e, r') => answer e r'
        end
    | (Raise e, r) => answer e r
    end.
Proof.
  unfold send_invoice, on_rest. unfold_monad. cbv zeta.
  destruct (invoice_api_create self (rest w)) as [[invoice|e] r]; cbn.
  - destruct (invoice_pay invoice r) as [[[]|e] r']; cbn; [reflexivity|].
    destruct (is_InvalidRequestError (exc_class e)); reflexivity.
  - destruct (is_InvalidRequestError (exc_class e)); reflexivity.
Qed.

(** X14: [send_invoice] never lets an [InvalidRequestError] out (it
    answers [False] instead), whether creating or paying the invoice
    raised it; what it does raise is of another class.  It leaves the
    subscription rows alone. *)
Theorem send_invoice_never_raises_invalid_request (self : Customer) (w : World R)
    (e : Exc) :
  (send_invoice invoice_api_create invoice_pay self w).1 = Raise e ->
  is_InvalidRequestError (exc_class e) = false
  /\ subscriptions (send_invoice invoice_api_create invoice_pay self w).2
     = subscriptions w.
Proof.
  rewrite send_invoice_outcome. cbv zeta.
  destruct (invoice_api_create self (rest w)) as [[invoice|e1] r]; cbn.
  - destruct (invoice_pay invoice r) as [[[]|e2] r']; cbn; [done|].
    destruct (is_InvalidRequestError (exc_class e2)) eqn:Hclass; [done|].
    by intros [= <-].
  - destruct (is_InvalidRequestError (exc_class e1)) eqn:Hclass; [done|].
    by intros [= <-].
Qed.

(** X15: when the provider has nothing to invoice (creating the
    invoice raises an [InvalidRequestError]), [subscribe] with
    [charge_immediately] still syncs the new subscription and returns
    it. *)
Theorem subscribe_survives_empty_invoice (self : Customer) (plan : PlanArg)
    (w : World R) (data : StripeSubscriptionData) (r r' : R) (e : Exc) :
  super_subscribe self plan (rest w) = (Ok data, r) ->
  invoice_api_create self r = (Raise e, r') ->
  is_InvalidRequestError (exc_class e) = true ->
  subscribe invoice_api_create invoice_pay super_subscribe sync_from_stripe_data
    self plan true w
  = sync_subscription sync_from_stripe_data data
      (mkWorld (subscriptions w) (calls w) r').
Proof.
  intros Hsub Hcreate Hclass. unfold subscribe. unfold_monad.
  unfold on_rest at 1. rewrite Hsub.
  rewrite send_invoice_outcome. cbn. rewrite Hcreate, Hclass. reflexivity.
Qed.

End BillingFacts.

(** Without [charge_immediately], [subscribe] makes no use of invoice
    creation or payment. *)
Remark subscribe_later_never_invoices {R RemoteInvoice StripeSubscriptionData : Type}
    (create1 create2 : Customer -> M R RemoteInvoice)
    (pay1 pay2 : RemoteInvoice -> M R unit)
    (super_subscribe : Customer -> PlanArg -> M R StripeSubscriptionData)
    (sync_from_stripe_data :
       StripeSubscriptionData -> M (list Subscription * R) Subscription)
    (self : Customer) (plan : PlanArg) (w : World R) :
  subscribe create1 pay1 super_subscribe sync_from_stripe_data self plan false w
  = subscribe create2 pay2 super_subscribe sync_from_stripe_data self plan false w.
Proof. reflexivity. Qed.

Lemma send_invoice_never_raises_invalid_request_witness :
  is_InvalidRequestError (exc_class Examples.card_declined) = false
  /\ subscriptions
       (send_invoice MoreExamples.create_invoice MoreExamples.pay_declined
          Examples.alice Examples.empty_world).2
     = subscriptions Examples.empty_world.
Proof.
  apply (send_invoice_never_raises_invalid_request MoreExamples.create_invoice
           MoreExamples.pay_declined Examples.alice Examples.empty_world
           Examples.card_declined).
  reflexivity.
Defined.

Lemma subscribe_survives_empty_invoice_witness :
  subscribe MoreExamples.nothing_to_invoice MoreExamples.pay_accepted
    MoreExamples.accept_subscribe MoreExamples.append_row
    Examples.alice (PlanId "gold") true Examples.empty_world
  = (Ok (mkSubscription "sub_9" 1 7 "active" 1500 9000 None None false),
     mkWorld [mkSubscription "sub_9" 1 7 "active" 1500 9000 None None false]
       [] tt).
Proof.
  apply (subscribe_survives_empty_invoice MoreExamples.nothing_to_invoice
           MoreExamples.pay_accepted MoreExamples.accept_subscribe
           MoreExamples.append_row Examples.alice (PlanId "gold")
           Examples.empty_world _ tt tt
           (exc InvalidRequestError "Nothing to invoice for customer"));
    reflexivity.
Defined.

(** ** Receipts *)

Section ReceiptFacts.

Context {R Site : Type}.
Variable site_get_current : M R Site.
Variable DEFAULT_HTTP_PROTOCOL : string.
Variable render_to_string : string -> Charge -> Site -> string -> M R string.
Variable strip : string -> string.
Variable subscriber_email : Charge -> M R string.
Variable INVOICE_FROM_EMAIL : string.
Variable email_send : EmailMessage -> M R Z.

(** X16: a call of [send_receipt] hands at most one message to the
    mail backend, and none at all, with nothing written, for a charge
    whose receipt is already marked sent; so once a call has returned
    the charge with [receipt_sent] set, calling again on it changes
    nothing. *)
Theorem send_receipt_at_most_once (self : Charge) (st : ChargeStore R) :
  let run := send_receipt site_get_current DEFAULT_HTTP_PROTOCOL render_to_string strip
               subscriber_email
               INVOICE_FROM_EMAIL email_send in
  (charge_receipt_sent self = true -> run self st = (Ok self, st))
  /\ (exists l, handed_over (run self st).2 = (handed_over st ++ l)%list
                /\ (length l <= 1)%nat)
  /\ forall self', (run self st).1 = Ok self' ->
       charge_receipt_sent self' = true ->
       run self' (run self st).2 = (Ok self', (run self st).2).
Proof.
  intros run. assert (Hsent : forall c s,
    charge_receipt_sent c = true -> run c s = (Ok c, s)).
  { intros c s Hc. subst run. unfold send_receipt. by rewrite Hc. }
  split_and!; [apply Hsent| |intros self' _ Hflag; by apply Hsent].
  subst run. unfold send_receipt.
  destruct (charge_receipt_sent self); cbn [negb].
  { exists []. split; [by rewrite app_nil_r|cbn; lia]. }
  unfold on_elsewhere, send_message, charge_save. unfold_monad.
  destruct (site_get_current (elsewhere st)) as [[site|e] r0]; cbn;
    [|exists []; split; [by rewrite app_nil_r|cbn; lia]].
  destruct (render_to_string _ self site _ r0) as [[subject|e] r1]; cbn;
    [|exists []; split; [by rewrite app_nil_r|cbn; lia]].
  destruct (render_to_string _ self site _ r1) as [[body|e] r2]; cbn;
    [|exists []; split; [by rewrite app_nil_r|cbn; lia]].
  destruct (subscriber_email self r2) as [[to|e] r3]; cbn;
    [|exists []; split; [by rewrite app_nil_r|cbn; lia]].
  destruct (email_send _ r3) as [[n|e] r4]; cbn; eexists [_]; (split; [done|cbn; lia]).
Qed.

(** X17: when [send_receipt] returns for a charge whose receipt was
    not yet sent, exactly one message was handed over, addressed to one
    recipient from the configured sender, and the charge row was saved
    as returned. *)
Theorem send_receipt_sends_one (self self' : Charge) (st st' : ChargeStore R) :
  charge_receipt_sent self = false ->
  send_receipt site_get_current DEFAULT_HTTP_PROTOCOL render_to_string strip
               subscriber_email INVOICE_FROM_EMAIL
    email_send self st = (Ok self', st') ->
  (exists m to,
     handed_over st' = (handed_over st ++ [m])%list
     /\ email_to m = [to] /\ email_from m = INVOICE_FROM_EMAIL)
  /\ charges st' !! charge_stripe_id self = Some self'
  /\ charge_stripe_id self' = charge_stripe_id self.
Proof.
  intros Hnot Hrun. unfold send_receipt in Hrun. rewrite Hnot in Hrun.
  cbn [negb] in Hrun.
  unfold on_elsewhere, send_message, charge_save in Hrun. unfold_monad in Hrun.
  destruct (site_get_current (elsewhere st)) as [[site|e] r0];
    cbn in Hrun; [|congruence].
  destruct (render_to_string _ self site _ r0) as [[subject|e] r1];
    cbn in Hrun; [|congruence].
  destruct (render_to_string _ self site _ r1) as [[body|e] r2];
    cbn in Hrun; [|congruence].
  destruct (subscriber_email self r2) as [[to|e] r3]; cbn in Hrun; [|congruence].
  destruct (email_send _ r3) as [[n|e] r4]; cbn in Hrun; [|congruence].
  inversion Hrun; subst; cbn.
  split_and!; [by eexists _, to|apply lookup_insert_eq|done].
Qed.

End ReceiptFacts.

Lemma send_receipt_at_most_once_witness :
  send_receipt MoreExamples.this_site "https" MoreExamples.render MoreExamples.no_strip MoreExamples.recipient
    "billing@example.com" MoreExamples.deliver (mkCharge "ch_1" 1 true)
    (send_receipt MoreExamples.this_site "https" MoreExamples.render MoreExamples.no_strip MoreExamples.recipient
       "billing@example.com" MoreExamples.deliver MoreExamples.fresh_charge
       MoreExamples.no_charges).2
  = (Ok (mkCharge "ch_1" 1 true),
     (send_receipt MoreExamples.this_site "https" MoreExamples.render MoreExamples.no_strip MoreExamples.recipient
        "billing@example.com" MoreExamples.deliver MoreExamples.fresh_charge
        MoreExamples.no_charges).2).
Proof.
  exact (proj2 (proj2 (send_receipt_at_most_once MoreExamples.this_site "https" MoreExamples.render
                         MoreExamples.no_strip MoreExamples.recipient
                         "billing@example.com" MoreExamples.deliver
                         MoreExamples.fresh_charge MoreExamples.no_charges))
           (mkCharge "ch_1" 1 true) eq_refl eq_refl).
Defined.

Lemma send_receipt_sends_one_witness :
  (exists m to,
     handed_over
       (send_receipt MoreExamples.this_site "https" MoreExamples.render MoreExamples.no_strip MoreExamples.recipient
          "billing@example.com" MoreExamples.deliver MoreExamples.fresh_charge
          MoreExamples.no_charges).2 = ([] ++ [m])%list
     /\ email_to m = [to] /\ email_from m = "billing@example.com")
  /\ charges
       (send_receipt MoreExamples.this_site "https" MoreExamples.render MoreExamples.no_strip MoreExamples.recipient
          "billing@example.com" MoreExamples.deliver MoreExamples.fresh_charge
          MoreExamples.no_charges).2 !! "ch_1"
     = Some (mkCharge "ch_1" 1 true)
  /\ charge_stripe_id (mkCharge "ch_1" 1 true) = "ch_1".
Proof.
  apply (send_receipt_sends_one MoreExamples.this_site "https" MoreExamples.render MoreExamples.no_strip
           MoreExamples.recipient "billing@example.com" MoreExamples.deliver
           MoreExamples.fresh_charge (mkCharge "ch_1" 1 true) MoreExamples.no_charges).
  - reflexivity.
  - vm_compute. reflexivity.
Defined.

(** ** Invoice lines *)

Section InvoiceLineFacts.

Context {R Period : Type}.
Variable convert_tstamp : Period -> string -> option datetime.
Variable plan_from_stripe_id : string -> option string.
Variable not_null_error : string -> Exc.

Lemma is_item_of_row (invoice : Invoice) (item : LineItem Period) (id : string) :
  is_item_of invoice id (item_row convert_tstamp plan_from_stripe_id invoice item)
  = bool_decide (li_id item = id).
Proof.
  unfold is_item_of, item_row. cbn. by rewrite bool_decide_eq_true_2.
Qed.

(** Overwriting the rows of one line id: the rows of that id all become
    the new row, the rows of any other id are untouched. *)
Lemma rows_for_overwrite (invoice : Invoice) (item : LineItem Period) (id : string)
    (l : list InvoiceItem) :
  let row := item_row convert_tstamp plan_from_stripe_id invoice item in
  rows_for invoice id
    (map (fun it => if is_item_of invoice (li_id item) it then row else it) l)
  = if bool_decide (li_id item = id)
    then map (fun _ => row) (rows_for invoice id l)
    else rows_for invoice id l.
Proof.
  intros row. unfold rows_for.
  induction l as [|it l IH]; [by case_bool_decide|].
  cbn [map]. rewrite !filter_cons, IH.
  destruct (is_item_of invoice (li_id item) it) eqn:Hit.
  - subst row. rewrite is_item_of_row.
    case_bool_decide as Hid.
    + subst id. rewrite Hit. by rewrite !decide_True by done.
    + assert (is_item_of invoice id it = false) as ->.
      { unfold is_item_of in *.
        apply andb_true_iff in Hit as [Hinv Hsid].
        apply bool_decide_eq_true in Hsid.
        rewrite Hinv. cbn. apply bool_decide_eq_false. congruence. }
      by rewrite !decide_False by done.
  - case_bool_decide as Hid; [|done].
    subst id. rewrite Hit. by rewrite !decide_False by done.
Qed.

(** The rows of every line id after one upsert that returned. *)
Lemma upsert_item_rows (invoice : Invoice) (item : LineItem Period) (db db' : Db R)
    (id : string) :
  upsert_item convert_tstamp plan_from_stripe_id not_null_error invoice item db = (Ok tt, db') ->
  invoices db' = invoices db /\ other db' = other db
  /\ rows_for invoice id (items db')
     = if bool_decide (li_id item = id)
       then [item_row convert_tstamp plan_from_stripe_id invoice item]
       else rows_for invoice id (items db).
Proof.
  unfold upsert_item. intros Hrun.
  fold (rows_for invoice (li_id item) (items db)) in Hrun.
  destruct (rows_for invoice (li_id item) (items db)) as [|x [|y l]] eqn:Hrows;
    [| |discriminate];
    (destruct (check_item not_null_error (li_amount item)
                 (item_row convert_tstamp plan_from_stripe_id invoice item));
     [discriminate|]);
    inversion Hrun; subst; cbn [invoices items other]; split_and!; try done.
  - unfold rows_for. rewrite filter_app, filter_cons, filter_nil.
    fold (rows_for invoice id (items db)).
    rewrite is_item_of_row. case_bool_decide as Hid.
    + subst id. rewrite Hrows. by rewrite decide_True by done.
    + by rewrite decide_False, app_nil_r by done.
  - rewrite rows_for_overwrite. case_bool_decide as Hid; [|done].
    subst id. by rewrite Hrows.
Qed.

(** An upsert that returned has passed the checks of the columns. *)
Lemma upsert_item_checked (invoice : Invoice) (item : LineItem Period) (db db' : Db R) :
  upsert_item convert_tstamp plan_from_stripe_id not_null_error invoice item db
    = (Ok tt, db') ->
  check_item not_null_error (li_amount item)
    (item_row convert_tstamp plan_from_stripe_id invoice item) = None.
Proof.
  unfold upsert_item. intros Hrun.
  destruct (filter _ (items db)) as [|x [|y l]]; [| |discriminate];
    by destruct (check_item _ _ _).
Qed.

(** X18: an upsert that returns leaves exactly one row for the line's
    id on that invoice, the row built from the line, and leaves the
    rows of every other line id, the invoice table and the rest of the
    store as they were. *)
Theorem upsert_item_one_row (invoice : Invoice) (item : LineItem Period)
    (db db' : Db R) :
  upsert_item convert_tstamp plan_from_stripe_id not_null_error invoice item db = (Ok tt, db') ->
  rows_for invoice (li_id item) (items db')
    = [item_row convert_tstamp plan_from_stripe_id invoice item]
  /\ (forall id, id ≠ li_id item ->
        rows_for invoice id (items db') = rows_for invoice id (items db))
  /\ invoices db' = invoices db /\ other db' = other db.
Proof.
  intros Hrun. split_and!.
  - destruct (upsert_item_rows invoice item db db' (li_id item) Hrun) as (_ & _ & ->).
    by rewrite bool_decide_eq_true_2.
  - intros id Hid.
    destruct (upsert_item_rows invoice item db db' id Hrun) as (_ & _ & ->).
    by rewrite bool_decide_eq_false_2.
  - by destruct (upsert_item_rows invoice item db db' "" Hrun) as (? & _).
  - by destruct (upsert_item_rows invoice item db db' "" Hrun) as (_ & ? & _).
Qed.

(** X19: the upsert is idempotent: repeating an upsert that returned
    returns again and changes nothing. *)
Theorem upsert_item_idempotent (invoice : Invoice) (item : LineItem Period)
    (db db' : Db R) :
  upsert_item convert_tstamp plan_from_stripe_id not_null_error invoice item db = (Ok tt, db') ->
  upsert_item convert_tstamp plan_from_stripe_id not_null_error invoice item db' = (Ok tt, db').
Proof.
  intros Hrun.
  destruct (upsert_item_rows invoice item db db' (li_id item) Hrun) as (_ & _ & Hone).
  rewrite bool_decide_eq_true_2 in Hone by done.
  pose proof (upsert_item_checked invoice item db db' Hrun) as Hchecked.
  unfold upsert_item. fold (rows_for invoice (li_id item) (items db')).
  rewrite Hone, Hchecked. f_equal. unfold rows_for in Hone.
  destruct db' as [invs its o]. cbn in *. f_equal.
  assert (Hall : forall it, it ∈ its -> is_item_of invoice (li_id item) it = true ->
                   it = item_row convert_tstamp plan_from_stripe_id invoice item).
  { intros it Hin Hit.
    assert (it ∈ filter (fun it => is_item_of invoice (li_id item) it = true) its)
      as Hrow by (by apply list_elem_of_filter).
    rewrite Hone in Hrow. by apply list_elem_of_singleton in Hrow. }
  clear Hone Hrun. induction its as [|it its IH]; [done|].
  cbn [map]. rewrite IH.
  - destruct (is_item_of invoice (li_id item) it) eqn:Hit; [|done].
    f_equal. symmetry. apply Hall; [apply list_elem_of_here|done].
  - intros it' Hin. apply Hall. by apply list_elem_of_further.
Qed.

(** X20: after a run of the line loop that returned, every line of the
    payload has exactly one item row on the invoice, however often its
    id occurs in the payload and whatever rows were there before. *)
Theorem sync_lines_no_duplicates (lines : list (LineItem Period)) :
  forall (invoice invoice' : Invoice) (db db' : Db R),
  sync_lines convert_tstamp plan_from_stripe_id not_null_error invoice lines db = (Ok invoice', db') ->
  forall item, item ∈ lines ->
    length (rows_for invoice (li_id item) (items db')) = 1%nat.
Proof.
  assert (Hkeep : forall lines invoice invoice' (db db' : Db R) id,
    sync_lines convert_tstamp plan_from_stripe_id not_null_error invoice lines db = (Ok invoice', db') ->
    length (rows_for invoice id (items db)) = 1%nat ->
    length (rows_for invoice id (items db')) = 1%nat).
  { clear lines. induction lines as [|item lines IH];
      intros invoice invoice' db db' id Hrun Hone.
    - cbn in Hrun. unfold_monad in Hrun. congruence.
    - cbn [sync_lines] in Hrun. unfold sync_line in Hrun. unfold_monad in Hrun.
      destruct (upsert_item _ _ _ _ item db) as [[[]|e] db1] eqn:Hup; [|congruence].
      apply (IH _ _ _ _ id) in Hrun; [exact Hrun|].
      destruct (upsert_item_rows _ item db db1 id Hup) as (_ & _ & Hrows).
      change (rows_for (set_period_end invoice _) id) with (rows_for invoice id)
        in Hrows |- *.
      rewrite Hrows. by case_bool_decide. }
  induction lines as [|item lines IH]; intros invoice invoice' db db' Hrun it Hin.
  - inversion Hin.
  - cbn [sync_lines] in Hrun. unfold sync_line in Hrun. unfold_monad in Hrun.
    destruct (upsert_item _ _ _ _ item db) as [[[]|e] db1] eqn:Hup; [|congruence].
    change (rows_for invoice (li_id it))
      with (rows_for (set_period_end invoice
                        (convert_tstamp (li_period item) "end")) (li_id it)).
    apply elem_of_cons in Hin as [->|Hin].
    + eapply Hkeep; [exact Hrun|].
      destruct (upsert_item_rows _ item db db1 (li_id item) Hup) as (_ & _ & ->).
      by rewrite bool_decide_eq_true_2.
    + by eapply IH.
Qed.

End InvoiceLineFacts.

Lemma upsert_item_one_row_witness :
  rows_for Examples.unpaid "a"
    (items (upsert_item Examples.convert Examples.no_plans Examples.null_refused Examples.unpaid
              (Examples.line "a" 300) Examples.empty_db).2)
    = [item_row Examples.convert Examples.no_plans Examples.unpaid
         (Examples.line "a" 300)]
  /\ (forall id, id ≠ "a" ->
        rows_for Examples.unpaid id
          (items (upsert_item Examples.convert Examples.no_plans Examples.null_refused Examples.unpaid
                    (Examples.line "a" 300) Examples.empty_db).2)
        = rows_for Examples.unpaid id (items Examples.empty_db))
  /\ invoices (upsert_item Examples.convert Examples.no_plans Examples.null_refused Examples.unpaid
                 (Examples.line "a" 300) Examples.empty_db).2
     = invoices Examples.empty_db
  /\ other (upsert_item Examples.convert Examples.no_plans Examples.null_refused Examples.unpaid
              (Examples.line "a" 300) Examples.empty_db).2
     = other Examples.empty_db.
Proof.
  apply (upsert_item_one_row Examples.convert Examples.no_plans Examples.null_refused Examples.unpaid
           (Examples.line "a" 300) Examples.empty_db).
  reflexivity.
Defined.

Lemma upsert_item_idempotent_witness :
  upsert_item Examples.convert Examples.no_plans Examples.null_refused Examples.unpaid
    (Examples.line "a" 300)
    (upsert_item Examples.convert Examples.no_plans Examples.null_refused Examples.unpaid
       (Examples.line "a" 300) Examples.empty_db).2
  = (Ok tt,
     (upsert_item Examples.convert Examples.no_plans Examples.null_refused Examples.unpaid
        (Examples.line "a" 300) Examples.empty_db).2).
Proof.
  apply (upsert_item_idempotent Examples.convert Examples.no_plans Examples.null_refused Examples.unpaid
           (Examples.line "a" 300) Examples.empty_db).
  reflexivity.
Defined.

Lemma sync_lines_no_duplicates_witness :
  length (rows_for Examples.unpaid "a"
            (items (sync_lines Examples.convert Examples.no_plans Examples.null_refused Examples.unpaid
                      MoreExamples.repeated_lines Examples.empty_db).2)) = 1%nat.
Proof.
  apply (sync_lines_no_duplicates Examples.convert Examples.no_plans Examples.null_refused
           MoreExamples.repeated_lines Examples.unpaid
           (set_period_end Examples.unpaid (Some 100)) Examples.empty_db
           (sync_lines Examples.convert Examples.no_plans Examples.null_refused Examples.unpaid
              MoreExamples.repeated_lines Examples.empty_db).2
           eq_refl (Examples.line "a" 300)).
  apply list_elem_of_here.
Defined.

(** ** Invoice retry: what it leaves out *)

Section RetryFrameFacts.

Context {R Period ChargeData ChargeRow : Type}.
Variable convert_tstamp : Period -> string -> option datetime.
Variable plan_from_stripe_id : string -> option string.
Variable not_null_error : string -> Exc.
Variable super_sync_from_stripe_data : InvoiceData Period -> M (Db R) Invoice.
Variable charge_api_retrieve : string -> M (Db R) ChargeData.
Variable charge_sync_from_stripe_data : ChargeData -> M (Db R) ChargeRow.
Variable customer_api_invoices : Customer -> M (Db R) (list (InvoiceData Period)).

(** [retry_unpaid_invoices] sends no receipt: the invoices it syncs
    first are synced with [send_receipt=False]. *)
Remark retry_never_sends_receipts
    (send1 send2 : ChargeRow -> M (Db R) unit)
    (invoice_retry : Invoice -> M (Db R) bool) (self : Customer) (db : Db R) :
  retry_unpaid_invoices convert_tstamp plan_from_stripe_id not_null_error
    super_sync_from_stripe_data charge_api_retrieve charge_sync_from_stripe_data
    send1 customer_api_invoices invoice_retry self db
  = retry_unpaid_invoices convert_tstamp plan_from_stripe_id not_null_error
      super_sync_from_stripe_data charge_api_retrieve charge_sync_from_stripe_data
      send2 customer_api_invoices invoice_retry self db.
Proof. reflexivity. Qed.

Lemma retry_loop_agrees (retry1 retry2 : Invoice -> M (Db R) bool)
    (qs : list Invoice) :
  (forall i db0, i ∈ qs -> retry1 i db0 = retry2 i db0) ->
  forall db, for_each qs (retry_one retry1) db = for_each qs (retry_one retry2) db.
Proof.
  induction qs as [|i qs IH]; intros Hagree db; [reflexivity|].
  cbn [for_each]. unfold bind. rewrite !retry_one_outcome.
  rewrite (Hagree i db (list_elem_of_here _ _)).
  assert (Hqs : forall db, for_each qs (retry_one retry1) db
                           = for_each qs (retry_one retry2) db).
  { apply IH. intros j db0 Hj. apply Hagree. by apply list_elem_of_further. }
  destruct (retry2 i db) as [[b|e] db1]; [apply Hqs|].
  destruct (swallowed_by_retry e); [apply Hqs|reflexivity].
Qed.

(** X21: [retry_unpaid_invoices] retries only this customer's invoices
    that are neither paid nor closed: two providers that answer alike
    on those give the same run, whatever they would answer on paid,
    closed or other customers' invoices. *)
Theorem retry_only_own_unpaid (send : ChargeRow -> M (Db R) unit)
    (retry1 retry2 : Invoice -> M (Db R) bool) (self : Customer) (db : Db R) :
  (forall i db0,
     inv_customer i = cust_id self -> inv_paid i = false -> inv_closed i = false ->
     retry1 i db0 = retry2 i db0) ->
  retry_unpaid_invoices convert_tstamp plan_from_stripe_id not_null_error
    super_sync_from_stripe_data charge_api_retrieve charge_sync_from_stripe_data
    send customer_api_invoices retry1 self db
  = retry_unpaid_invoices convert_tstamp plan_from_stripe_id not_null_error
      super_sync_from_stripe_data charge_api_retrieve charge_sync_from_stripe_data
      send customer_api_invoices retry2 self db.
Proof.
  intros Hagree. unfold retry_unpaid_invoices. unfold_monad.
  destruct (_sync_invoices _ _ _ _ _ _ _ _ self db) as [[[]|e] db1]; [|reflexivity].
  unfold unpaid_invoices. apply retry_loop_agrees.
  intros i db0 Hin. apply list_elem_of_filter in Hin as [(Hown & Hpaid & Hclosed) _].
  by apply Hagree.
Qed.

End RetryFrameFacts.

Lemma retry_only_own_unpaid_witness :
  retry_unpaid_invoices Examples.convert Examples.no_plans Examples.null_refused
    Examples.fetch_or_new
    Examples.no_charge_data Examples.no_charge_sync Examples.no_receipt
    Examples.no_remote_invoices MoreExamples.retry_accepts
    Examples.alice MoreExamples.mixed_db
  = retry_unpaid_invoices Examples.convert Examples.no_plans Examples.null_refused
    Examples.fetch_or_new
      Examples.no_charge_data Examples.no_charge_sync Examples.no_receipt
      Examples.no_remote_invoices MoreExamples.retry_refuses_settled
      Examples.alice MoreExamples.mixed_db.
Proof.
  apply (retry_only_own_unpaid Examples.convert Examples.no_plans Examples.null_refused
           Examples.fetch_or_new Examples.no_charge_data Examples.no_charge_sync
           Examples.no_remote_invoices Examples.no_receipt
           MoreExamples.retry_accepts MoreExamples.retry_refuses_settled
           Examples.alice MoreExamples.mixed_db).
  intros i db0 _ Hpaid Hclosed.
  unfold MoreExamples.retry_refuses_settled. rewrite Hpaid, Hclosed. reflexivity.
Defined.

(** ** Splitting an event type *)

(** Pushes string appends through the constructors. *)
Ltac push_append :=
  repeat first
    [ progress change (String.append EmptyString ?s) with s in *
    | progress change (String.append (String ?c ?a) ?s)
        with (String c (String.append a s)) in * ].

Lemma split_dot_append (a b : string) :
  exists a' b', split_dot (a ++ "." ++ b) = Some (a', b').
Proof.
  induction a as [|c a IH]; push_append; cbn [split_dot].
  - rewrite Ascii.eqb_refl. eauto.
  - destruct (Ascii.eqb c "."); [eauto|].
    destruct IH as (a' & b' & ->). eauto.
Qed.

Lemma split_dot_None (s : string) :
  split_dot s = None <-> forall a b, s ≠ a ++ "." ++ b.
Proof.
  split.
  - intros Hnone a b ->. destruct (split_dot_append a b) as (a' & b' & Hsome).
    congruence.
  - induction s as [|c s IH]; intros Hno; [reflexivity|]. cbn [split_dot].
    destruct (Ascii.eqb c ".") eqn:Hc.
    + apply Ascii.eqb_eq in Hc as ->. by destruct (Hno "" s).
    + rewrite IH; [done|]. intros a b ->. by apply (Hno (String c a) b).
Qed.

(** X22: the split of an event type is at its first dot: it yields
    [(a, b)] exactly when the type is [a], a dot, then [b], with no dot
    in [a]; a type with no dot at all does not split. *)
Theorem split_dot_first_dot (s a b : string) :
  split_dot s = Some (a, b) <->
  s = a ++ "." ++ b /\ forall a' b', a ≠ a' ++ "." ++ b'.
Proof.
  revert a b. induction s as [|c s IH]; intros a b; cbn [split_dot].
  - split; [done|]. intros [Hs _]. destruct a; push_append; discriminate.
  - destruct (Ascii.eqb c ".") eqn:Hc.
    + apply Ascii.eqb_eq in Hc as ->. split.
      * intros [= <- <-]. split; [done|]. intros a' b'.
        destruct a'; push_append; discriminate.
      * intros [Hs Hno]. destruct a as [|c' a]; push_append.
        -- by inversion Hs.
        -- inversion Hs; subst. by destruct (Hno "" a).
    + apply Ascii.eqb_neq in Hc.
      destruct (split_dot s) as [[h t]|] eqn:Hsplit.
      * split.
        -- intros [= <- <-]. destruct (proj1 (IH h t) eq_refl) as [-> Hno].
           split; [done|].
           intros a' b' Heq. destruct a' as [|c' a']; push_append.
           ++ by inversion Heq.
           ++ inversion Heq. by eapply Hno.
        -- intros [Hs Hno]. destruct a as [|c' a]; push_append.
           ++ by inversion Hs.
           ++ inversion Hs; subst.
              assert (Some (h, t) = Some (a, b)) as [= -> ->]; [|done].
              apply IH. split; [done|]. intros a' b' ->.
              by apply (Hno (String c' a') b').
      * split; [done|]. intros [Hs Hno]. destruct a as [|c' a]; push_append.
        -- by inversion Hs.
        -- inversion Hs; subst.
           destruct (split_dot_append a b) as (a' & b' & Hsome).
           push_append. congruence.
Qed.

(** ** Event processing: success, guards, invariants *)

Section MoreEventFacts.

Context {R Msg Data : Type}.
Variable msg_eq : Msg -> Msg -> bool.
Variable msg_data : Msg -> option Data.
Variable api_retrieve_message : Event Msg -> M R Msg.
Variable call_handlers : Data -> string -> string -> M (Event Msg * EventStore R Msg) unit.
Variable WEBHOOK_SIGNALS : gset string.
Variable format_exc : Exc -> string.

(** X23: when the handlers of a valid, unprocessed event return,
    [process] marks the event, as the handlers left it, processed,
    saves it, broadcasts the signal of its type if one is registered
    and logs nothing; and processing the returned event again does
    nothing at all: the handlers run once. *)
Theorem process_runs_handlers_once (self self1 : Event Msg)
    (st st1 : EventStore R Msg) (event_type event_subtype : string) (data : Data) :
  ev_valid self = Some true ->
  ev_processed self = false ->
  split_dot (ev_type self) = Some (event_type, event_subtype) ->
  msg_data (ev_webhook_message self) = Some data ->
  call_handlers data event_type event_subtype (self, st) = (Ok tt, (self1, st1)) ->
  let self' := set_processed self1 true in
  let st2 :=
    mkEventStore (<[ev_stripe_id self1 := self']> (events st1)) (exception_log st1)
      (sent st1 ++ if bool_decide (ev_type self1 ∈ WEBHOOK_SIGNALS)
                   then [WebhookSignal (ev_type self1) self1] else [])
      (outside st1) in
  process msg_data call_handlers WEBHOOK_SIGNALS format_exc self st = (Ok self', st2)
  /\ process msg_data call_handlers WEBHOOK_SIGNALS format_exc self' st2
     = (Ok self', st2).
Proof.
  intros Hvalid Hproc Hsplit Hdata Hcall self' st2. split.
  - unfold process. rewrite Hvalid, Hproc, Hsplit. cbn [truthy negb andb].
    unfold process_try, self_now, on_store, message_data, message, send_signal,
      send, event_save.
    unfold_monad. cbn [fst snd]. rewrite Hvalid. cbn [truthy].
    rewrite Hdata. unfold_monad. rewrite Hcall. cbn [fst snd].
    subst st2. case_bool_decide; cbn; [done|]. by rewrite app_nil_r.
  - unfold process. subst self'. cbn. by rewrite andb_false_r.
Qed.

(** X24: a valid, unprocessed event whose type has no dot makes
    [process] raise [ValueError] before any handler is called; nothing
    is written. *)
Theorem process_rejects_undotted_type (self : Event Msg) (st : EventStore R Msg) :
  ev_valid self = Some true ->
  ev_processed self = false ->
  (forall a b, ev_type self ≠ a ++ "." ++ b) ->
  process msg_data call_handlers WEBHOOK_SIGNALS format_exc self st =
    (Raise (exc ValueError "not enough values to unpack (expected 2, got 1)"), st).
Proof.
  intros Hvalid Hproc Hno. apply split_dot_None in Hno.
  unfold process. by rewrite Hvalid, Hproc, Hno.
Qed.

(** X25: an event that validation finds inauthentic (the stored message
    differs from the one fetched again) exposes no message and is not
    dispatched: [process] on it calls no handler and writes nothing. *)
Theorem inauthentic_event_is_not_processed (self : Event Msg)
    (st : EventStore R Msg) (validated_message : Msg) (o : R) :
  api_retrieve_message self (outside st) = (Ok validated_message, o) ->
  msg_eq (ev_webhook_message self) validated_message = false ->
  exists self' st',
    validate msg_eq api_retrieve_message self st = (Ok self', st')
    /\ ev_valid self' = Some false
    /\ message self' = None
    /\ process msg_data call_handlers WEBHOOK_SIGNALS format_exc self' st'
       = (Ok self', st').
Proof.
  intros Hfetch Hdiff. unfold validate, event_save. unfold_monad.
  rewrite Hfetch, Hdiff.
  do 2 eexists. split; [reflexivity|]. done.
Qed.

End MoreEventFacts.

Lemma process_runs_handlers_once_witness :
  process Examples.whole_message
    (fun _ _ _ => mret tt : M (Event string * EventStore unit string) unit)
    Examples.known_signals Examples.traceback_of
    (mkEvent "evt_1" "charge.succeeded" "payload" (Some 1) (Some true) true)
    (mkEventStore
       {[ "evt_1" := mkEvent "evt_1" "charge.succeeded" "payload" (Some 1)
                       (Some true) true ]}
       [] [WebhookSignal "charge.succeeded" (Examples.charge_event (Some true))] tt)
  = (Ok (mkEvent "evt_1" "charge.succeeded" "payload" (Some 1) (Some true) true),
     mkEventStore
       {[ "evt_1" := mkEvent "evt_1" "charge.succeeded" "payload" (Some 1)
                       (Some true) true ]}
       [] [WebhookSignal "charge.succeeded" (Examples.charge_event (Some true))] tt).
Proof.
  exact (proj2 (process_runs_handlers_once Examples.whole_message
                  (fun _ _ _ => mret tt) Examples.known_signals
                  Examples.traceback_of (Examples.charge_event (Some true))
                  (Examples.charge_event (Some true))
                  Examples.no_events Examples.no_events "charge" "succeeded"
                  "payload" eq_refl eq_refl eq_refl eq_refl eq_refl)).
Defined.

Lemma process_rejects_undotted_type_witness :
  process Examples.whole_message Examples.failing_handlers Examples.known_signals
    Examples.traceback_of (mkEvent "evt_2" "ping" "payload" None (Some true) false)
    Examples.no_events
  = (Raise (exc ValueError "not enough values to unpack (expected 2, got 1)"),
     Examples.no_events).
Proof.
  apply (process_rejects_undotted_type Examples.whole_message
           Examples.failing_handlers Examples.known_signals Examples.traceback_of
           (mkEvent "evt_2" "ping" "payload" None (Some true) false)
           Examples.no_events); [reflexivity..|].
  apply split_dot_None. reflexivity.
Defined.

Lemma inauthentic_event_is_not_processed_witness :
  exists self' st',
    validate String.eqb Examples.tampered (Examples.charge_event None)
      Examples.no_events = (Ok self', st')
    /\ ev_valid self' = Some false
    /\ message self' = None
    /\ process Examples.whole_message Examples.failing_handlers
         Examples.known_signals Examples.traceback_of self' st' = (Ok self', st').
Proof.
  apply (inauthentic_event_is_not_processed String.eqb Examples.whole_message
           Examples.tampered Examples.failing_handlers Examples.known_signals
           Examples.traceback_of (Examples.charge_event None) Examples.no_events
           "other payload" tt); reflexivity.
Defined.

(** ** Transfer reconciliation without a status refresh *)

Section MoreTransferFacts.

Context {R : Type}.
Variable api_retrieve_status : Transfer -> M R string.

(** The fee loop writes fee rows only, and fails exactly when an
    amount does not fit. *)
Lemma create_fees_frame (transfer : Transfer) (fees : list FeeDetail) :
  forall st : TransferStore R,
  exists rows,
    for_each fees (create_fee transfer) st =
      (if forallb (fun fee => fits_decimal_7_2 (fd_amount fee)) fees
       then Ok tt else Raise decimal_overflow,
       mkTransferStore (transfers st) rows (status_calls st) (provider st)).
Proof.
  induction fees as [|fee fees IH]; intros st.
  - exists (charge_fee_details st). by destruct st.
  - cbn [for_each forallb]. unfold bind, create_fee at 1.
    destruct (fits_decimal_7_2 (fd_amount fee)).
    + match goal with |- context [for_each fees _ ?s] => destruct (IH s) as [rows ->] end.
      exists rows. cbn. by destruct (forallb _ fees).
    + exists (charge_fee_details st). by destruct st.
Qed.

(** A sync that is not triggered by "transfer.updated". *)
Lemma process_transfer_plain (event : option EventRef)
    (stripe_object : TransferData) (st : TransferStore R) :
  is_transfer_updated event = false ->
  process_transfer api_retrieve_status event stripe_object st =
    match transfers st !! td_id stripe_object with
    | Some transfer =>
        (Ok tt,
         mkTransferStore
           (<[tr_stripe_id transfer :=
                mkTransfer (tr_stripe_id transfer) (td_status stripe_object)
                  (er_stripe_id <$> event) (tr_amount transfer)
                  (tr_description transfer)]> (transfers st))
           (charge_fee_details st) (status_calls st) (provider st))
    | None =>
        let created := mkTransfer (td_id stripe_object) (td_status stripe_object)
                         (er_stripe_id <$> event) (td_amount stripe_object)
                         (td_description stripe_object) in
        for_each (td_charge_fee_details stripe_object) (create_fee created)
          (mkTransferStore (<[td_id stripe_object := created]> (transfers st))
             (charge_fee_details st) (status_calls st) (provider st))
    end.
Proof.
  intros Hplain. unfold process_transfer, _create_from_stripe_object.
  unfold_monad. rewrite Hplain.
  destruct (transfers st !! td_id stripe_object) as [transfer|].
  - reflexivity.
  - unfold transfer_save at 1 2. unfold_monad. cbn.
    rewrite insert_insert_eq.
    by destruct (for_each _ _ _) as [[[]|e] s1].
Qed.



End MoreTransferFacts.


